(** * mastodon_exporter: the collection pipeline of [main.go]

    A shallow embedding of the scrape cycle of the exporter (the revision of
    [main.go] with the two families [num_reports] and
    [resolved_time_seconds]): the query layer ([getNumReports],
    [getResolvedStats]), the bucketing loop ([resolvedMetricFromNums]) and
    the orchestrator ([scrape]).

    Go's [float64] is Rocq's primitive binary64 [float]; Go's [int] and
    [uint64] are [Z] with the wrap-around written where the code can wrap;
    a [map[float64]uint64] is an association list read with Go's [==]. *)

From Stdlib Require Import ZArith List Bool String Lia Floats Permutation.
Import ListNotations.

Local Open Scope Z_scope.

(** * The program *)

(** ** binary64

    Go compares [float64] values with the IEEE-754 predicates, which are the
    primitive [<=?], [<?] and [=?] of Rocq. *)

Module F64.

Local Open Scope float_scope.

Definition t := float.

(** [x == y] of Go on [float64]. *)
Definition eq (x y : float) : bool := (x =? y)%float.
(** [x <= y] of Go on [float64]. *)
Definition le (x y : float) : bool := (x <=? y)%float.
(** [x < y] of Go on [float64]. *)
Definition lt (x y : float) : bool := (x <? y)%float.

(** An order-preserving rank of the comparable values: the class
    (-inf, negative, zero, positive, +inf), then exponent and mantissa. *)
Definition rank (f : spec_float) : option (Z * Z * Z) :=
  match f with
  | S754_nan => None
  | S754_infinity true => Some (-2, 0, 0)%Z
  | S754_infinity false => Some (2, 0, 0)%Z
  | S754_zero _ => Some (0, 0, 0)%Z
  | S754_finite true m e => Some (-1, - e, - Z.pos m)%Z
  | S754_finite false m e => Some (1, e, Z.pos m)%Z
  end.

Definition lex3 (a b : Z * Z * Z) : comparison :=
  let '(a1, a2, a3) := a in
  let '(b1, b2, b3) := b in
  match (a1 ?= b1)%Z with
  | Eq => match (a2 ?= b2)%Z with
          | Eq => (a3 ?= b3)%Z
          | c => c
          end
  | c => c
  end.

Definition rank_compare (f g : spec_float) : option comparison :=
  match rank f, rank g with
  | Some a, Some b => Some (lex3 a b)
  | _, _ => None
  end.

End F64.

(** ** Go values used by the exporter *)

(** [uint64] arithmetic wraps modulo [2^64]. *)
Definition uint64_wrap (z : Z) : Z := z mod 2 ^ 64.

(** The largest length a Go slice can have on a 64-bit platform
    ([len] is an [int]). *)
Definition max_int : Z := 2 ^ 63 - 1.

(** The conversion [float64(n)] of a Go [int]: the integer rounded to the
    nearest binary64, ties to even. *)
Definition float64_of_int (n : Z) : float :=
  SF2Prim (binary_normalize prec emax n 0 false).

(** *** [map[float64]uint64]

    Keys are compared with [==], so [+0] and [-0] are one key and a NaN key
    is never found again. A read of an absent key gives the zero value. *)
Module GoMap.

Definition t := list (float * Z).

(** [make(map[float64]uint64)] *)
Definition make : t := [].

(** The entry stored under [k], when there is one. *)
Fixpoint lookup (m : t) (k : float) : option Z :=
  match m with
  | [] => None
  | (k', v) :: m' => if F64.eq k' k then Some v else lookup m' k
  end.

(** [m[k]] *)
Definition get (m : t) (k : float) : Z :=
  match lookup m k with
  | Some v => v
  | None => 0
  end.

(** [m[k] = v]; on an existing entry the runtime stores the new key too
    (it may be the other zero). *)
Fixpoint set (m : t) (k : float) (v : Z) : t :=
  match m with
  | [] => [(k, v)]
  | (k', v') :: m' =>
      if F64.eq k' k then (k, v) :: m' else (k', v') :: set m' k v
  end.

(** [m[k]++] *)
Definition incr (m : t) (k : float) : t :=
  set m k (uint64_wrap (get m k + 1)).

(** [len(m)] *)
Definition len (m : t) : Z := Z.of_nat (List.length m).

End GoMap.

(** ** Errors

    [fmt.Errorf("prefix: %w", err)] wraps [err]. *)
Inductive error : Type :=
| errorString (msg : string)
| wrapError (prefix : string) (inner : error).

(** ** The Prometheus client, as far as the exporter uses it

    After [client_golang]: a descriptor is a name, a help text and the names
    of its variable labels; the constructors of const metrics refuse a
    number of label values that differs from the number of variable labels,
    and their [Must] forms panic on that error. (The checks of the spelling
    of names and of the encoding of label values concern constants of
    [main.go] that pass them.) *)

Record Desc : Type := {
  fqName : string;
  help : string;
  variableLabels : list string
}.

(** [prometheus.BuildFQName]: the non-empty parts joined by an underscore. *)
Definition BuildFQName (namespace subsystem name : string) : string :=
  if String.eqb name "" then ""
  else if negb (String.eqb namespace "") && negb (String.eqb subsystem "")
       then namespace ++ "_" ++ subsystem ++ "_" ++ name
  else if negb (String.eqb namespace "") then namespace ++ "_" ++ name
  else if negb (String.eqb subsystem "") then subsystem ++ "_" ++ name
  else name.

(** [prometheus.NewDesc(fqName, help, variableLabels, nil)] *)
Definition NewDesc (fqName help : string) (variableLabels : list string) : Desc :=
  {| fqName := fqName; help := help; variableLabels := variableLabels |}.

Inductive ValueType : Type := CounterValue | GaugeValue | UntypedValue.

(** A [prometheus.Gauge] is a pointer to a cell that [Set] overwrites; the
    cell lives in the heap of the [World] below. *)
Record Gauge : Type := {
  gaugeDesc : Desc;
  gaugeAddr : nat
}.

(** What travels on the channel of [Collect]. A const metric carries its
    value; a gauge is sent as the live object and is read by the receiver. *)
Inductive Metric : Type :=
| constMetric (desc : Desc) (valType : ValueType) (val : float)
              (labelValues : list string)
| constHistogram (desc : Desc) (count : Z) (sum : float)
                 (buckets : GoMap.t) (labelValues : list string)
| gaugeMetric (g : Gauge).

Definition metricDesc (x : Metric) : Desc :=
  match x with
  | constMetric d _ _ _ => d
  | constHistogram d _ _ _ _ => d
  | gaugeMetric g => gaugeDesc g
  end.

(** [validateLabelValues]: as many label values as the descriptor has
    variable labels. *)
Definition validateLabelValues (vals : list string) (expected : nat) : option error :=
  if Nat.eqb (List.length vals) expected then None
  else Some (errorString "inconsistent label cardinality").

(** [prometheus.NewConstMetric] *)
Definition NewConstMetric (desc : Desc) (valueType : ValueType) (value : float)
    (labelValues : list string) : Metric + error :=
  match validateLabelValues labelValues (List.length (variableLabels desc)) with
  | Some err => inr err
  | None => inl (constMetric desc valueType value labelValues)
  end.

(** [prometheus.NewConstHistogram] *)
Definition NewConstHistogram (desc : Desc) (count : Z) (sum : float)
    (buckets : GoMap.t) (labelValues : list string) : Metric + error :=
  match validateLabelValues labelValues (List.length (variableLabels desc)) with
  | Some err => inr err
  | None => inl (constHistogram desc count sum buckets labelValues)
  end.

(** ** The store, seen from the exporter

    The store answers the two statements of the exporter.
    [QueryRow(..).Scan] leaves two integers in its destinations and returns
    an error or nil; [Query] returns an error or a cursor, whose rows each
    scan to a number or to an error and which may hold an error of its own
    at the end. The exporter holds a handle on the pool; what the store
    answers belongs to the world and may differ from scrape to scrape. *)
Record Rows : Type := {
  rowScans : list (float + error);
  rowsErr : option error
}.

Record Store : Type := {
  reportCounts : Z * Z * option error;
  resolutionTimes : Rows + error
}.

Inductive Pool : Type := pgxpool.

Inductive Statement : Type := SelectReportCounts | SelectResolutionTimes.

(** ** The process state around a scrape *)

Inductive Event : Type :=
| Queried (q : Statement)
| LoggedError (msg : string) (err : error).

Record World : Type := {
  store : Store;                       (* what the database answers now *)
  resolutionTimeBuckets : list float;  (* the package variable *)
  gauges : list float;                 (* the cells of the gauges made so far *)
  chan : list Metric;                  (* what was sent on [ch], oldest first *)
  trace : list Event                   (* statements issued and errors logged *)
}.

Definition set_store (s : Store) (w : World) : World :=
  {| store := s; resolutionTimeBuckets := resolutionTimeBuckets w;
     gauges := gauges w; chan := chan w; trace := trace w |}.

Definition set_buckets (bs : list float) (w : World) : World :=
  {| store := store w; resolutionTimeBuckets := bs;
     gauges := gauges w; chan := chan w; trace := trace w |}.

Definition set_gauges (gs : list float) (w : World) : World :=
  {| store := store w; resolutionTimeBuckets := resolutionTimeBuckets w;
     gauges := gs; chan := chan w; trace := trace w |}.

Definition set_chan (c : list Metric) (w : World) : World :=
  {| store := store w; resolutionTimeBuckets := resolutionTimeBuckets w;
     gauges := gauges w; chan := c; trace := trace w |}.

Definition set_trace (t : list Event) (w : World) : World :=
  {| store := store w; resolutionTimeBuckets := resolutionTimeBuckets w;
     gauges := gauges w; chan := chan w; trace := t |}.

(** The bucket bounds [main.go] starts with, in seconds. *)
Definition resolutionTimeBuckets_init : list float :=
  [60; 600; 1800; 3600; 14400; 28800; 86400; 172800; 604800]%float.

(** The process before [newExporter], in front of a store [s]. *)
Definition World_init (s : Store) : World :=
  {| store := s; resolutionTimeBuckets := resolutionTimeBuckets_init;
     gauges := []; chan := []; trace := [] |}.

(** A Go computation either returns or panics, in both cases leaving a
    world behind. *)
Inductive Result (A : Type) : Type :=
| Returned (a : A) (w : World)
| Panicked (err : error) (w : World).
Arguments Returned {A} a w.
Arguments Panicked {A} err w.

Definition Go (A : Type) : Type := World -> Result A.

Definition ret {A} (a : A) : Go A := fun w => Returned a w.

Definition bind {A B} (c : Go A) (k : A -> Go B) : Go B :=
  fun w => match c w with
           | Returned a w' => k a w'
           | Panicked e w' => Panicked e w'
           end.

Definition panic {A} (e : error) : Go A := fun w => Panicked e w.

Declare Scope go_scope.
Delimit Scope go_scope with go.
Notation "x <- c ;; k" := (bind c (fun x => k))
  (at level 61, c at next level, right associativity) : go_scope.
Notation "' pat <- c ;; k" := (bind c (fun x => match x with pat => k end))
  (at level 61, pat pattern, c at next level, right associativity) : go_scope.
Notation "c ;; k" := (bind c (fun _ => k))
  (at level 61, right associativity) : go_scope.
Local Open Scope go_scope.

(** [ch <- x] *)
Definition send (x : Metric) : Go unit :=
  fun w => Returned tt (set_chan (chan w ++ [x]) w).

Definition emit (e : Event) : Go unit :=
  fun w => Returned tt (set_trace (trace w ++ [e]) w).

(** [level.Error(logger).Log("msg", msg, "err", err)] *)
Definition logError (msg : string) (err : error) : Go unit :=
  emit (LoggedError msg err).

(** The value of the package variable at this moment. *)
Definition readBuckets : Go (list float) :=
  fun w => Returned (resolutionTimeBuckets w) w.

(** The answer of the store to a statement, which is thereby issued. *)
Definition queryRow : Go (Z * Z * option error) :=
  emit (Queried SelectReportCounts) ;;
  fun w => Returned (reportCounts (store w)) w.

Definition query : Go (Rows + error) :=
  emit (Queried SelectResolutionTimes) ;;
  fun w => Returned (resolutionTimes (store w)) w.

Fixpoint update_cell (cells : list float) (addr : nat) (v : float) : list float :=
  match cells, addr with
  | [], _ => []
  | _ :: cells', O => v :: cells'
  | c :: cells', S addr' => c :: update_cell cells' addr' v
  end.

(** [prometheus.NewGauge(opts)]: a new cell holding zero. *)
Definition NewGauge (namespace subsystem name help : string) : Go Gauge :=
  fun w => Returned
    {| gaugeDesc := NewDesc (BuildFQName namespace subsystem name) help [];
       gaugeAddr := List.length (gauges w) |}
    (set_gauges (gauges w ++ [0%float]) w).

(** [g.Set(v)] *)
Definition GaugeSet (g : Gauge) (v : float) : Go unit :=
  fun w => Returned tt (set_gauges (update_cell (gauges w) (gaugeAddr g) v) w).

(** The value a gauge holds in a world. *)
Definition gaugeValue (w : World) (g : Gauge) : float :=
  nth (gaugeAddr g) (gauges w) 0%float.

(** [prometheus.MustNewConstMetric] *)
Definition MustNewConstMetric (desc : Desc) (valueType : ValueType) (value : float)
    (labelValues : list string) : Go Metric :=
  match NewConstMetric desc valueType value labelValues with
  | inl x => ret x
  | inr err => panic err
  end.

(** [prometheus.MustNewConstHistogram] *)
Definition MustNewConstHistogram (desc : Desc) (count : Z) (sum : float)
    (buckets : GoMap.t) (labelValues : list string) : Go Metric :=
  match NewConstHistogram desc count sum buckets labelValues with
  | inl x => ret x
  | inr err => panic err
  end.

(** [pgx.CollectRows(rows, fn)]: [fn] on every row in turn, the first
    error ends the collection; after the last row the cursor's own error. A
    row is represented by what [row.Scan(&n)] does on it. *)
Definition CollectableRow : Type := (float + error)%type.

Fixpoint collectLoop {T} (rows : list CollectableRow)
    (fn : CollectableRow -> T + error) (slice : list T) : list T + error :=
  match rows with
  | [] => inl slice
  | row :: rest =>
      match fn row with
      | inr err => inr err
      | inl value => collectLoop rest fn (slice ++ [value])
      end
  end.

Definition CollectRows {T} (rows : Rows) (fn : CollectableRow -> T + error)
    : list T + error :=
  match collectLoop (rowScans rows) fn [] with
  | inr err => inr err
  | inl slice =>
      match rowsErr rows with
      | Some err => inr err
      | None => inl slice
      end
  end.

(** ** The exporter *)

Definition namespace : string := "mastodon".
Definition subsystem : string := "exporter".
Definition exporterName : string := "mastodon_exporter".

Record mastodonExporter : Type := {
  db : Pool;
  numReports : Desc;
  resolvedTimeSeconds : Desc;
  errors : Gauge
}.

Definition newExporter (db : Pool) : Go mastodonExporter :=
  g <- NewGauge namespace subsystem "errors"
         "Number of errors encountered while querying." ;;
  ret {| db := db;
         numReports :=
           NewDesc (BuildFQName namespace subsystem "num_reports")
                   "Number of reports for this Mastodon instance."
                   ["resolved"%string];
         resolvedTimeSeconds :=
           NewDesc (BuildFQName namespace subsystem "resolved_time_seconds")
                   "Time taken to resolve reports in this Mastodon instance."
                   [];
         errors := g |}.

Definition Describe (m : mastodonExporter) : list Desc :=
  [numReports m; resolvedTimeSeconds m; gaugeDesc (errors m)].

Definition getNumReports (m : mastodonExporter) : Go (Z * Z * option error) :=
  queryRow.

(** The inner loop of [resolvedMetricFromNums]: one observation against
    every bound. *)
Definition bucketLoop (num : float) (bounds : list float) (buckets : GoMap.t)
    : GoMap.t :=
  fold_left
    (fun buckets bucket =>
       if F64.le num bucket then GoMap.incr buckets bucket else buckets)
    bounds buckets.

(** The outer loop: the running sum and the map, one observation at a time. *)
Definition numbersLoop (bounds : list float) (numbers : list float)
    (acc : float * GoMap.t) : float * GoMap.t :=
  fold_left
    (fun acc num =>
       let '(sum, buckets) := acc in
       ((sum + num)%float, bucketLoop num bounds buckets))
    numbers acc.

Definition resolvedMetricFromNums (m : mastodonExporter) (numbers : list float)
    : Go Metric :=
  bounds <- readBuckets ;;
  let '(sum, buckets) := numbersLoop bounds numbers (0%float, GoMap.make) in
  MustNewConstHistogram
    (resolvedTimeSeconds m)
    (uint64_wrap (Z.of_nat (List.length numbers)))
    sum
    buckets
    [].

(** The function literal given to [pgx.CollectRows]. *)
Definition scanNumber (row : CollectableRow) : float + error :=
  match row with
  | inr err => inr (wrapError "scanning row: " err)
  | inl n => inl n
  end.

Definition getResolvedStats (m : mastodonExporter) : Go (Metric + error) :=
  r <- query ;;
  match r with
  | inr err => ret (inr (wrapError "querying database: " err))
  | inl rows =>
      match CollectRows rows scanNumber with
      | inr err => ret (inr (wrapError "scanning rows: " err))
      | inl numbers =>
          x <- resolvedMetricFromNums m numbers ;;
          ret (inl x)
      end
  end.

(** [numErrors] counts to 2 at most, far from the wrap-around of [int]. *)
Definition scrape (m : mastodonExporter) : Go unit :=
  let numErrors := 0 in
  ' (resolved, unresolved, err) <- getNumReports m ;;
  numErrors <-
    match err with
    | Some err =>
        logError "Error querying number of reports" err ;;
        ret (numErrors + 1)
    | None =>
        x <- MustNewConstMetric (numReports m) GaugeValue
               (float64_of_int resolved) ["true"%string] ;;
        send x ;;
        y <- MustNewConstMetric (numReports m) GaugeValue
               (float64_of_int unresolved) ["false"%string] ;;
        send y ;;
        ret numErrors
    end ;;
  r <- getResolvedStats m ;;
  numErrors <-
    match r with
    | inr err =>
        logError "Error querying report metrics" err ;;
        ret (numErrors + 1)
    | inl resolvedHist =>
        send resolvedHist ;;
        ret numErrors
    end ;;
  GaugeSet (errors m) (float64_of_int numErrors) ;;
  send (gaugeMetric (errors m)).

Definition Collect (m : mastodonExporter) : Go unit := scrape m.

(** ** What the receiver of the channel reads *)

Inductive Sample : Type :=
| valueSample (name : string) (kind : ValueType)
              (labels : list (string * string)) (value : float)
| histogramSample (name : string) (labels : list (string * string))
                  (buckets : GoMap.t) (sum : float) (count : Z).

(** A metric, read in world [w]: a const metric gives what it was built
    with, a gauge gives what its cell holds at that moment. *)
Definition sampleOf (w : World) (x : Metric) : Sample :=
  match x with
  | constMetric d vt v lvs =>
      valueSample (fqName d) vt (combine (variableLabels d) lvs) v
  | constHistogram d c s bs lvs =>
      histogramSample (fqName d) (combine (variableLabels d) lvs) bs s c
  | gaugeMetric g =>
      valueSample (fqName (gaugeDesc g)) GaugeValue [] (gaugeValue w g)
  end.

(** Whether a computation returned rather than panicked. *)
Definition returned {A} (r : Result A) : bool :=
  match r with
  | Returned _ _ => true
  | Panicked _ _ => false
  end.

(** The process right after [newExporter(pool)] in [main], in front of a
    store [s]. *)
Definition startup (s : Store) : Result mastodonExporter :=
  newExporter pgxpool (World_init s).

(** ** Vocabulary of the statements *)

(** The bounds are strictly increasing: each is below the next. *)
Fixpoint strictly_increasing (bounds : list float) : bool :=
  match bounds with
  | [] => true
  | b :: rest =>
      match rest with
      | [] => true
      | b' :: _ => F64.lt b b' && strictly_increasing rest
      end
  end.

Definition all_positive (bounds : list float) : bool :=
  forallb (fun b => F64.lt 0%float b) bounds.

(** How many observations are at most [b]. *)
Definition count_le (numbers : list float) (b : float) : nat :=
  List.length (filter (fun d => F64.le d b) numbers).

(** The binary64 sum of the observations, added in their order to [+0]. *)
Fixpoint sum_from (acc : float) (numbers : list float) : float :=
  match numbers with
  | [] => acc
  | d :: rest => sum_from (acc + d)%float rest
  end.

Definition sum_of (numbers : list float) : float := sum_from 0%float numbers.

(** The parts of a histogram metric. *)
Definition histBuckets (x : Metric) : GoMap.t :=
  match x with
  | constHistogram _ _ _ bs _ => bs
  | _ => GoMap.make
  end.

Definition histSum (x : Metric) : float :=
  match x with
  | constHistogram _ _ s _ _ => s
  | _ => 0%float
  end.

Definition histCount (x : Metric) : Z :=
  match x with
  | constHistogram _ c _ _ _ => c
  | _ => 0
  end.

Definition isHistogram (x : Metric) : bool :=
  match x with
  | constHistogram _ _ _ _ _ => true
  | _ => false
  end.

(** The cumulative count a histogram gives for the bound [b]: the map read
    at [b]. *)
Definition bucketCount (x : Metric) (b : float) : Z :=
  GoMap.get (histBuckets x) b.

(** An exporter in use: it was made by [newExporter] and the world still
    has the cell of its gauge (cells are never freed). *)
Definition installed (m : mastodonExporter) (w : World) : Prop :=
  exists pool w0 w1,
    newExporter pool w0 = Returned m w1 /\
    (List.length (gauges w1) <= List.length (gauges w))%nat.

(** How many of the two family queries fail in front of a store. *)
Definition reportsFail (s : Store) : bool :=
  match reportCounts s with
  | (_, _, Some _) => true
  | (_, _, None) => false
  end.

Definition durationsFail (s : Store) : bool :=
  match resolutionTimes s with
  | inr _ => true
  | inl rows =>
      match CollectRows rows scanNumber with
      | inr _ => true
      | inl _ => false
      end
  end.

Definition failures (s : Store) : Z :=
  Z.b2z (reportsFail s) + Z.b2z (durationsFail s).

(** ** The descriptors made at startup *)

Definition numReportsDesc : Desc :=
  {| fqName := "mastodon_exporter_num_reports";
     help := "Number of reports for this Mastodon instance.";
     variableLabels := ["resolved"%string] |}.

Definition resolvedTimeSecondsDesc : Desc :=
  {| fqName := "mastodon_exporter_resolved_time_seconds";
     help := "Time taken to resolve reports in this Mastodon instance.";
     variableLabels := [] |}.

Definition errorsDesc : Desc :=
  {| fqName := "mastodon_exporter_errors";
     help := "Number of errors encountered while querying.";
     variableLabels := [] |}.

(** The histogram that [resolvedMetricFromNums] hands back: it never
    panics, whatever the observations and the bounds. *)
Definition histogramOf (m : mastodonExporter) (bounds numbers : list float)
    : Metric :=
  constHistogram (resolvedTimeSeconds m)
    (uint64_wrap (Z.of_nat (List.length numbers)))
    (fst (numbersLoop bounds numbers (0%float, GoMap.make)))
    (snd (numbersLoop bounds numbers (0%float, GoMap.make)))
    [].

(** ** A running example: three reports, all resolved *)

Definition exampleStore : Store :=
  {| reportCounts := (3, 0, None);
     resolutionTimes :=
       inl {| rowScans := [inl 45%float; inl 500%float; inl 3700%float];
              rowsErr := None |} |}.

Definition exampleExporter : mastodonExporter :=
  {| db := pgxpool;
     numReports := numReportsDesc;
     resolvedTimeSeconds := resolvedTimeSecondsDesc;
     errors := {| gaugeDesc := errorsDesc; gaugeAddr := 0 |} |}.

Definition exampleWorld : World :=
  {| store := exampleStore;
     resolutionTimeBuckets := resolutionTimeBuckets_init;
     gauges := [0%float]; chan := []; trace := [] |}.

(** ** One scrape, in closed form *)

(** The samples of the report family that a scrape sends. *)
Definition reportSamples (m : mastodonExporter) (s : Store) : list Metric :=
  match reportCounts s with
  | (_, _, Some _) => []
  | (resolved, unresolved, None) =>
      [constMetric (numReports m) GaugeValue (float64_of_int resolved)
                   ["true"%string];
       constMetric (numReports m) GaugeValue (float64_of_int unresolved)
                   ["false"%string]]
  end.

(** The error [getResolvedStats] returns in front of a store, if any. *)
Definition durationError (s : Store) : option error :=
  match resolutionTimes s with
  | inr err => Some (wrapError "querying database: " err)
  | inl rows =>
      match CollectRows rows scanNumber with
      | inr err => Some (wrapError "scanning rows: " err)
      | inl _ => None
      end
  end.

(** The sample of the duration family that a scrape sends. *)
Definition durationSamples (m : mastodonExporter) (bounds : list float)
    (s : Store) : list Metric :=
  match resolutionTimes s with
  | inr _ => []
  | inl rows =>
      match CollectRows rows scanNumber with
      | inr _ => []
      | inl numbers => [histogramOf m bounds numbers]
      end
  end.

Definition reportTrace (s : Store) : list Event :=
  Queried SelectReportCounts ::
  match reportCounts s with
  | (_, _, Some err) => [LoggedError "Error querying number of reports" err]
  | (_, _, None) => []
  end.

Definition durationTrace (s : Store) : list Event :=
  Queried SelectResolutionTimes ::
  match durationError s with
  | Some err => [LoggedError "Error querying report metrics" err]
  | None => []
  end.

(** The world a scrape leaves. *)
Definition scrapeWorld (m : mastodonExporter) (w : World) : World :=
  {| store := store w;
     resolutionTimeBuckets := resolutionTimeBuckets w;
     gauges := update_cell (gauges w) (gaugeAddr (errors m))
                 (float64_of_int (failures (store w)));
     chan := chan w ++ reportSamples m (store w)
                    ++ durationSamples m (resolutionTimeBuckets w) (store w)
                    ++ [gaugeMetric (errors m)];
     trace := trace w ++ reportTrace (store w) ++ durationTrace (store w) |}.

(** What a computation sent on the channel: the part of [chan] it added. *)
Definition emitted (w w' : World) : list Metric :=
  skipn (List.length (chan w)) (chan w').

Definition named (name : string) (x : Metric) : bool :=
  String.eqb (fqName (metricDesc x)) name.

(** The statements a computation issued: the queries it added to the trace. *)
Definition queriesOf (t : list Event) : list Statement :=
  flat_map (fun e => match e with
                     | Queried q => [q]
                     | LoggedError _ _ => []
                     end) t.

Definition issued (w w' : World) : list Statement :=
  queriesOf (skipn (List.length (trace w)) (trace w')).

(** Stores that fail in part or in whole. *)
Definition reportsDownStore : Store :=
  {| reportCounts := (0, 0, Some (errorString "connection refused"));
     resolutionTimes := resolutionTimes exampleStore |}.

Definition durationsDownStore : Store :=
  {| reportCounts := (3, 0, None);
     resolutionTimes := inr (errorString "connection refused") |}.

Definition allDownStore : Store :=
  {| reportCounts := (0, 0, Some (errorString "connection refused"));
     resolutionTimes := inr (errorString "connection refused") |}.

Definition badRows : Rows :=
  {| rowScans := [inl 45%float;
                  inr (errorString "cannot scan NULL into *float64");
                  inl 500%float];
     rowsErr := None |}.

Definition badRowStore : Store :=
  {| reportCounts := (3, 0, None); resolutionTimes := inl badRows |}.

(** ** Further vocabulary *)

(** How many of the bounds are [==] to [b]. *)
Definition multiplicity (bounds : list float) (b : float) : nat :=
  List.length (filter (fun k => F64.eq k b) bounds).

(** [x != x], which holds of NaN alone. *)
Definition isNaN (x : float) : bool := negb (F64.eq x x).

(** The keys a map holds. *)
Definition mapKeys (m : GoMap.t) : list float := List.map fst m.

(** Every count a map holds is a [uint64]. *)
Definition countsInRange (m : GoMap.t) : Prop :=
  Forall (fun kv => 0 <= snd kv < 2 ^ 64) m.

(** The error lines a computation logged: those it added to the trace. *)
Definition errorsOf (t : list Event) : list (string * error) :=
  flat_map (fun e => match e with
                     | Queried _ => []
                     | LoggedError msg err => [(msg, err)]
                     end) t.

Definition errorsLogged (w w' : World) : list (string * error) :=
  errorsOf (skipn (List.length (trace w)) (trace w')).

(** A store whose cursor breaks after the last row. *)
Definition cursorErrorStore : Store :=
  {| reportCounts := (3, 0, None);
     resolutionTimes :=
       inl {| rowScans := [inl 45%float; inl 500%float];
              rowsErr := Some (errorString "unexpected EOF") |} |}.

(** ** The revision with the account and post families

    [main.go] has a second state, which adds the families [num_accounts]
    and [num_posts] and logs at debug level; [getNumReports],
    [getResolvedStats] and [resolvedMetricFromNums] are the same text in
    both. The shared functions are run, through [lift], on the part of the
    world they know. *)
Module Full.

Local Abbreviation coreExporter := mastodonExporter.
Local Abbreviation mkCoreExporter := Build_mastodonExporter.
Local Abbreviation coreStore := Store.
Local Abbreviation coreWorld := World.
Local Abbreviation mkCoreWorld := Build_World.
Local Abbreviation coreEvent := Event.
Local Abbreviation coreQueried := Queried.
Local Abbreviation coreGo := Go.
Local Abbreviation coreReturned := Returned.
Local Abbreviation corePanicked := Panicked.
Local Abbreviation core_store := store.
Local Abbreviation core_buckets := resolutionTimeBuckets.
Local Abbreviation core_gauges := gauges.
Local Abbreviation core_chan := chan.
Local Abbreviation core_trace := trace.
Local Abbreviation core_send := send.
Local Abbreviation core_logError := logError.
Local Abbreviation core_getNumReports := getNumReports.
Local Abbreviation core_getResolvedStats := getResolvedStats.
Local Abbreviation core_resolvedMetricFromNums := resolvedMetricFromNums.

(** What the store answers: to the two statements of the report families,
    to the statement of [getNumAccounts] (five integers and an error or
    nil) and to that of [getNumPosts] (one integer and an error or nil). *)
Record Store : Type := {
  reportStore : coreStore;
  accountCounts : Z * Z * Z * Z * Z * option error;
  postCount : Z * option error
}.

Inductive Statement : Type := SelectAccountCounts | SelectPostCount.

Inductive Event : Type :=
| Shared (e : coreEvent)
| Queried (q : Statement)
| LoggedDebug (msg : string).

Record World : Type := {
  store : Store;
  resolutionTimeBuckets : list float;
  gauges : list float;
  chan : list Metric;
  trace : list Event
}.

Definition set_store (s : Store) (w : World) : World :=
  {| store := s; resolutionTimeBuckets := resolutionTimeBuckets w;
     gauges := gauges w; chan := chan w; trace := trace w |}.

Definition set_trace (t : list Event) (w : World) : World :=
  {| store := store w; resolutionTimeBuckets := resolutionTimeBuckets w;
     gauges := gauges w; chan := chan w; trace := t |}.

Definition World_init (s : Store) : World :=
  {| store := s; resolutionTimeBuckets := resolutionTimeBuckets_init;
     gauges := []; chan := []; trace := [] |}.

Inductive Result (A : Type) : Type :=
| Returned (a : A) (w : World)
| Panicked (err : error) (w : World).
Arguments Returned {A} a w.
Arguments Panicked {A} err w.

Definition Go (A : Type) : Type := World -> Result A.

Definition ret {A} (a : A) : Go A := fun w => Returned a w.

Definition bind {A B} (c : Go A) (k : A -> Go B) : Go B :=
  fun w => match c w with
           | Returned a w' => k a w'
           | Panicked e w' => Panicked e w'
           end.

(** [defer d] at the head of [body]: [d] runs when [body] returns and when
    it panics. *)
Definition deferring {A} (d : Go unit) (body : Go A) : Go A :=
  fun w => match body w with
           | Returned a w' =>
               match d w' with
               | Returned _ w'' => Returned a w''
               | Panicked e w'' => Panicked e w''
               end
           | Panicked e w' =>
               match d w' with
               | Returned _ w'' => Panicked e w''
               | Panicked e' w'' => Panicked e' w''
               end
           end.

Declare Scope full_scope.
Delimit Scope full_scope with full.
Notation "x <- c ;; k" := (bind c (fun x => k))
  (at level 61, c at next level, right associativity) : full_scope.
Notation "' pat <- c ;; k" := (bind c (fun x => match x with pat => k end))
  (at level 61, pat pattern, c at next level, right associativity) : full_scope.
Notation "c ;; k" := (bind c (fun _ => k))
  (at level 61, right associativity) : full_scope.
Local Open Scope full_scope.

(** The world as the shared code sees it, with an empty trace to write
    on, and the world once the shared code has run. *)
Definition toCore (w : World) : coreWorld :=
  mkCoreWorld (reportStore (store w)) (resolutionTimeBuckets w) (gauges w)
              (chan w) [].

Definition fromCore (w : World) (c : coreWorld) : World :=
  {| store := {| reportStore := core_store c;
                 accountCounts := accountCounts (store w);
                 postCount := postCount (store w) |};
     resolutionTimeBuckets := core_buckets c;
     gauges := core_gauges c;
     chan := core_chan c;
     trace := trace w ++ map Shared (core_trace c) |}.

Definition lift {A} (c : coreGo A) : Go A :=
  fun w => match c (toCore w) with
           | coreReturned a c' => Returned a (fromCore w c')
           | corePanicked e c' => Panicked e (fromCore w c')
           end.

Definition emit (e : Event) : Go unit :=
  fun w => Returned tt (set_trace (trace w ++ [e]) w).

(** [level.Debug(logger).Log("msg", msg)] *)
Definition logDebug (msg : string) : Go unit := emit (LoggedDebug msg).

Definition queryRowAccounts : Go (Z * Z * Z * Z * Z * option error) :=
  emit (Queried SelectAccountCounts) ;;
  fun w => Returned (accountCounts (store w)) w.

Definition queryRowPosts : Go (Z * option error) :=
  emit (Queried SelectPostCount) ;;
  fun w => Returned (postCount (store w)) w.

Record mastodonExporter : Type := {
  db : Pool;
  numAccounts : Desc;
  numPosts : Desc;
  numReports : Desc;
  resolvedTimeSeconds : Desc;
  errors : Gauge
}.

(** The receiver, as the shared methods use it. *)
Definition core (m : mastodonExporter) : coreExporter :=
  mkCoreExporter (db m) (numReports m) (resolvedTimeSeconds m) (errors m).

Definition newExporter (db : Pool) : Go mastodonExporter :=
  g <- lift (NewGauge namespace subsystem "errors"
               "Number of errors encountered while querying.") ;;
  ret {| db := db;
         numAccounts :=
           NewDesc (BuildFQName namespace subsystem "num_accounts")
                   "Number of accounts on this Mastodon instance."
                   ["type"%string];
         numPosts :=
           NewDesc (BuildFQName namespace subsystem "num_posts")
                   "Number of posts on this Mastodon instance."
                   [];
         numReports :=
           NewDesc (BuildFQName namespace subsystem "num_reports")
                   "Number of reports for this Mastodon instance."
                   ["resolved"%string];
         resolvedTimeSeconds :=
           NewDesc (BuildFQName namespace subsystem "resolved_time_seconds")
                   "Time taken to resolve reports in this Mastodon instance."
                   [];
         errors := g |}.

Definition Describe (m : mastodonExporter) : list Desc :=
  [numAccounts m; numPosts m; numReports m; resolvedTimeSeconds m;
   gaugeDesc (errors m)].

Definition getNumReports (m : mastodonExporter) : Go (Z * Z * option error) :=
  lift (core_getNumReports (core m)).

Definition getResolvedStats (m : mastodonExporter) : Go (Metric + error) :=
  lift (core_getResolvedStats (core m)).

Definition resolvedMetricFromNums (m : mastodonExporter)
    (numbers : list float) : Go Metric :=
  lift (core_resolvedMetricFromNums (core m) numbers).

Record labelVal : Type := { Name : string; Val : Z }.

(** The loop of [getNumAccounts]: one gauge per [labelVal], appended. *)
Fixpoint accountsLoop (m : mastodonExporter) (lvs : list labelVal)
    (ret0 : list Metric) : Go (list Metric) :=
  match lvs with
  | [] => ret ret0
  | lv :: rest =>
      x <- lift (MustNewConstMetric (numAccounts m) GaugeValue
                   (float64_of_int (Val lv)) [Name lv]) ;;
      accountsLoop m rest (ret0 ++ [x])
  end.

Definition getNumAccounts (m : mastodonExporter) : Go (list Metric + error) :=
  ' (v1, v2, v3, v4, v5, err) <- queryRowAccounts ;;
  let unsuspended := {| Name := "unsuspended"; Val := v1 |} in
  let bots := {| Name := "bots"; Val := v2 |} in
  let groups := {| Name := "groups"; Val := v3 |} in
  let people := {| Name := "people"; Val := v4 |} in
  let suspended := {| Name := "suspended"; Val := v5 |} in
  match err with
  | Some err => ret (inr err)
  | None =>
      r <- accountsLoop m [unsuspended; bots; groups; people; suspended] [] ;;
      ret (inl r)
  end.

Definition getNumPosts (m : mastodonExporter) : Go (Z * option error) :=
  queryRowPosts.

(** [for _, m := range accounts { ch <- m }] *)
Fixpoint sendAll (xs : list Metric) : Go unit :=
  match xs with
  | [] => ret tt
  | x :: rest => lift (core_send x) ;; sendAll rest
  end.

Definition scrape (m : mastodonExporter) : Go unit :=
  deferring (logDebug "scrape finished")
    (let numErrors := 0 in
     logDebug "Fetching number of reports" ;;
     ' (resolved, unresolved, err) <- getNumReports m ;;
     numErrors <-
       match err with
       | Some err =>
           lift (core_logError "Error querying number of reports" err) ;;
           ret (numErrors + 1)
       | None =>
           x <- lift (MustNewConstMetric (numReports m) GaugeValue
                        (float64_of_int resolved) ["true"%string]) ;;
           lift (core_send x) ;;
           y <- lift (MustNewConstMetric (numReports m) GaugeValue
                        (float64_of_int unresolved) ["false"%string]) ;;
           lift (core_send y) ;;
           ret numErrors
       end ;;
     logDebug "Fetching report metrics" ;;
     r <- getResolvedStats m ;;
     numErrors <-
       match r with
       | inr err =>
           lift (core_logError "Error querying report metrics" err) ;;
           ret (numErrors + 1)
       | inl resolvedHist =>
           lift (core_send resolvedHist) ;;
           ret numErrors
       end ;;
     logDebug "Fetching number of accounts" ;;
     r <- getNumAccounts m ;;
     numErrors <-
       match r with
       | inr err =>
           lift (core_logError "Error querying number of accounts" err) ;;
           ret (numErrors + 1)
       | inl accounts =>
           sendAll accounts ;;
           ret numErrors
       end ;;
     logDebug "Fetching number of posts" ;;
     ' (numPosts', err) <- getNumPosts m ;;
     numErrors <-
       match err with
       | Some err =>
           lift (core_logError "Error querying number of posts" err) ;;
           ret (numErrors + 1)
       | None =>
           x <- lift (MustNewConstMetric (numPosts m) GaugeValue
                        (float64_of_int numPosts') []) ;;
           lift (core_send x) ;;
           ret numErrors
       end ;;
     lift (GaugeSet (errors m) (float64_of_int numErrors)) ;;
     lift (core_send (gaugeMetric (errors m)))).

Definition Collect (m : mastodonExporter) : Go unit := scrape m.

(** The value the gauge holds in a world. *)
Definition gaugeValue (w : World) (g : Gauge) : float :=
  nth (gaugeAddr g) (gauges w) 0%float.

(** What a computation sent, and what it added to the trace. *)
Definition emitted (w w' : World) : list Metric :=
  skipn (List.length (chan w)) (chan w').

Definition logged (w w' : World) : list Event :=
  skipn (List.length (trace w)) (trace w').

(** An exporter in use, as for the other revision. *)
Definition installed (m : mastodonExporter) (w : World) : Prop :=
  exists pool w0 w1,
    newExporter pool w0 = Returned m w1 /\
    (List.length (gauges w1) <= List.length (gauges w))%nat.

Definition accountsFail (s : Store) : bool :=
  match accountCounts s with
  | (_, _, _, _, _, Some _) => true
  | (_, _, _, _, _, None) => false
  end.

Definition postsFail (s : Store) : bool :=
  match postCount s with
  | (_, Some _) => true
  | (_, None) => false
  end.

(** How many of the four family queries fail in front of a store. *)
Definition failures (s : Store) : Z :=
  Z.b2z (reportsFail (reportStore s)) + Z.b2z (durationsFail (reportStore s))
  + Z.b2z (accountsFail s) + Z.b2z (postsFail s).

(** The five gauges of the account family, in the order of the loop. *)
Definition accountGauges (m : mastodonExporter) (v1 v2 v3 v4 v5 : Z)
    : list Metric :=
  [constMetric (numAccounts m) GaugeValue (float64_of_int v1)
               ["unsuspended"%string];
   constMetric (numAccounts m) GaugeValue (float64_of_int v2)
               ["bots"%string];
   constMetric (numAccounts m) GaugeValue (float64_of_int v3)
               ["groups"%string];
   constMetric (numAccounts m) GaugeValue (float64_of_int v4)
               ["people"%string];
   constMetric (numAccounts m) GaugeValue (float64_of_int v5)
               ["suspended"%string]].

Definition accountSamples (m : mastodonExporter) (s : Store) : list Metric :=
  match accountCounts s with
  | (_, _, _, _, _, Some _) => []
  | (v1, v2, v3, v4, v5, None) => accountGauges m v1 v2 v3 v4 v5
  end.

Definition postSamples (m : mastodonExporter) (s : Store) : list Metric :=
  match postCount s with
  | (_, Some _) => []
  | (count, None) =>
      [constMetric (numPosts m) GaugeValue (float64_of_int count) []]
  end.

Definition accountTrace (s : Store) : list Event :=
  [LoggedDebug "Fetching number of accounts"; Queried SelectAccountCounts] ++
  match accountCounts s with
  | (_, _, _, _, _, Some err) =>
      [Shared (LoggedError "Error querying number of accounts" err)]
  | (_, _, _, _, _, None) => []
  end.

Definition postTrace (s : Store) : list Event :=
  [LoggedDebug "Fetching number of posts"; Queried SelectPostCount] ++
  match postCount s with
  | (_, Some err) =>
      [Shared (LoggedError "Error querying number of posts" err)]
  | (_, None) => []
  end.

(** The world a scrape leaves. *)
Definition scrapeWorld (m : mastodonExporter) (w : World) : World :=
  {| store := store w;
     resolutionTimeBuckets := resolutionTimeBuckets w;
     gauges := update_cell (gauges w) (gaugeAddr (errors m))
                 (float64_of_int (failures (store w)));
     chan := chan w
               ++ reportSamples (core m) (reportStore (store w))
               ++ durationSamples (core m) (resolutionTimeBuckets w)
                    (reportStore (store w))
               ++ accountSamples m (store w)
               ++ postSamples m (store w)
               ++ [gaugeMetric (errors m)];
     trace := trace w
                ++ [LoggedDebug "Fetching number of reports"]
                ++ map Shared (reportTrace (reportStore (store w)))
                ++ [LoggedDebug "Fetching report metrics"]
                ++ map Shared (durationTrace (reportStore (store w)))
                ++ accountTrace (store w)
                ++ postTrace (store w)
                ++ [LoggedDebug "scrape finished"] |}.

(** The events that are statements issued to the store. *)
Definition isQuery (e : Event) : bool :=
  match e with
  | Shared (coreQueried _) => true
  | Shared _ => false
  | Queried _ => true
  | LoggedDebug _ => false
  end.

(** An example: the store of the running example, 101 local accounts and
    1938 posts. *)
Definition exampleStore : Full.Store :=
  {| reportStore := exampleStore;
     accountCounts := (101, 1, 0, 100, 1, None);
     postCount := (1938, None) |}.

Definition exampleExporter : mastodonExporter :=
  {| db := pgxpool;
     numAccounts :=
       {| fqName := "mastodon_exporter_num_accounts";
          help := "Number of accounts on this Mastodon instance.";
          variableLabels := ["type"%string] |};
     numPosts :=
       {| fqName := "mastodon_exporter_num_posts";
          help := "Number of posts on this Mastodon instance.";
          variableLabels := [] |};
     numReports := numReportsDesc;
     resolvedTimeSeconds := resolvedTimeSecondsDesc;
     errors := {| gaugeDesc := errorsDesc; gaugeAddr := 0 |} |}.

Definition exampleWorld : World :=
  {| store := exampleStore;
     resolutionTimeBuckets := resolutionTimeBuckets_init;
     gauges := [0%float]; chan := []; trace := [] |}.

End Full.

(** * Facts *)

(** ** Order facts about binary64

    The primitive [<=?], [<?] and [=?] are specified by [SFcompare] on the
    unpacked values; [rank] turns it into a lexicographic order. *)
Module F64Facts.
Import F64.
Local Open Scope float_scope.

Lemma SFcompare_rank f g : SFcompare f g = rank_compare f g.
Proof.
  destruct f as [sf | sf | | sf mf ef], g as [sg | sg | | sg mg eg];
    try destruct sf; try destruct sg; try reflexivity.
  (* the remaining case: both finite and negative *)
  unfold rank_compare; cbn [SFcompare rank lex3]. f_equal.
  change (-1 ?= -1)%Z with Eq. cbv iota.
  rewrite !Z.compare_opp.
  change (Z.pos mg ?= Z.pos mf)%Z with (Pos.compare mg mf).
  rewrite (Pos.compare_antisym mf mg), (Z.compare_antisym ef eg).
  change (Pos.compare_cont Eq mf mg) with (Pos.compare mf mg).
  destruct (ef ?= eg)%Z; reflexivity.
Qed.

Lemma lex3_Lt_trans a b c : lex3 a b = Lt -> lex3 b c = Lt -> lex3 a c = Lt.
Proof.
  destruct a as [[a1 a2] a3], b as [[b1 b2] b3], c as [[c1 c2] c3]; unfold lex3.
  destruct (Z.compare_spec a1 b1), (Z.compare_spec a2 b2), (Z.compare_spec a3 b3);
    try discriminate;
    destruct (Z.compare_spec b1 c1), (Z.compare_spec b2 c2), (Z.compare_spec b3 c3);
    try discriminate; intros _ _;
    destruct (Z.compare_spec a1 c1), (Z.compare_spec a2 c2), (Z.compare_spec a3 c3);
    try reflexivity; lia.
Qed.

Lemma lex3_Eq a b : lex3 a b = Eq <-> a = b.
Proof.
  destruct a as [[a1 a2] a3], b as [[b1 b2] b3]; unfold lex3.
  destruct (Z.compare_spec a1 b1), (Z.compare_spec a2 b2), (Z.compare_spec a3 b3);
    split; intros E; try discriminate; try reflexivity;
    try (inversion E; lia); subst; reflexivity.
Qed.

Lemma lex3_antisym a b : lex3 b a = CompOpp (lex3 a b).
Proof.
  destruct a as [[a1 a2] a3], b as [[b1 b2] b3]; unfold lex3.
  rewrite (Z.compare_antisym a1 b1), (Z.compare_antisym a2 b2), (Z.compare_antisym a3 b3).
  destruct (a1 ?= b1)%Z, (a2 ?= b2)%Z, (a3 ?= b3)%Z; reflexivity.
Qed.

(** The three predicates, read on ranks. *)
Lemma eq_rank x y :
  eq x y = true <->
  exists a, rank (Prim2SF x) = Some a /\ rank (Prim2SF y) = Some a.
Proof.
  unfold eq. rewrite FloatAxioms.eqb_spec. unfold SFeqb.
  rewrite SFcompare_rank. unfold rank_compare.
  destruct (rank (Prim2SF x)) as [a|], (rank (Prim2SF y)) as [b|].
  - destruct (lex3 a b) eqn:E.
    + apply lex3_Eq in E. subst. split; eauto.
    + split; [discriminate|]. intros (c & Ha & Hb).
      assert (a = b) as Hab by congruence. apply lex3_Eq in Hab. congruence.
    + split; [discriminate|]. intros (c & Ha & Hb).
      assert (a = b) as Hab by congruence. apply lex3_Eq in Hab. congruence.
  - split; [discriminate|]. intros (c & _ & Hb). discriminate.
  - split; [discriminate|]. intros (c & Ha & _). discriminate.
  - split; [discriminate|]. intros (c & Ha & _). discriminate.
Qed.

Lemma lt_rank x y :
  lt x y = true <->
  exists a b, rank (Prim2SF x) = Some a /\ rank (Prim2SF y) = Some b /\ lex3 a b = Lt.
Proof.
  unfold lt. rewrite FloatAxioms.ltb_spec. unfold SFltb.
  rewrite SFcompare_rank. unfold rank_compare.
  destruct (rank (Prim2SF x)) as [a|], (rank (Prim2SF y)) as [b|].
  - destruct (lex3 a b) eqn:E; split; try discriminate; eauto;
      intros (a' & b' & Ha & Hb & Hl); congruence.
  - split; [discriminate|]. intros (a' & b' & _ & Hb & _). discriminate.
  - split; [discriminate|]. intros (a' & b' & Ha & _). discriminate.
  - split; [discriminate|]. intros (a' & b' & Ha & _). discriminate.
Qed.

Lemma le_rank x y :
  le x y = true <->
  exists a b, rank (Prim2SF x) = Some a /\ rank (Prim2SF y) = Some b /\ lex3 a b <> Gt.
Proof.
  unfold le. rewrite FloatAxioms.leb_spec. unfold SFleb.
  rewrite SFcompare_rank. unfold rank_compare.
  destruct (rank (Prim2SF x)) as [a|], (rank (Prim2SF y)) as [b|].
  - destruct (lex3 a b) eqn:E; split; try discriminate; eauto.
    + intros _. exists a, b. rewrite E. repeat split; discriminate.
    + intros _. exists a, b. rewrite E. repeat split; discriminate.
    + intros (a' & b' & Ha & Hb & Hl). congruence.
  - split; [discriminate|]. intros (a' & b' & _ & Hb & _). discriminate.
  - split; [discriminate|]. intros (a' & b' & Ha & _). discriminate.
  - split; [discriminate|]. intros (a' & b' & Ha & _). discriminate.
Qed.

Lemma lex3_total a b : lex3 a b <> Gt -> lex3 a b = Lt \/ a = b.
Proof.
  destruct (lex3 a b) eqn:E; intros H.
  - right. now apply lex3_Eq.
  - now left.
  - congruence.
Qed.

(** [==] is reflexive on every value that is comparable with something
    (that is, on everything but NaN). *)
Lemma lt_eq_refl_r x y : lt x y = true -> eq y y = true.
Proof.
  rewrite lt_rank, eq_rank. intros (a & b & _ & Hb & _). eauto.
Qed.

Lemma lt_eq_refl_l x y : lt x y = true -> eq x x = true.
Proof.
  rewrite lt_rank, eq_rank. intros (a & b & Ha & _ & _). eauto.
Qed.

Lemma eq_sym x y : eq x y = eq y x.
Proof.
  apply eq_true_iff_eq. rewrite !eq_rank.
  split; intros (a & H1 & H2); eauto.
Qed.

Lemma eq_trans x y z : eq x y = true -> eq y z = true -> eq x z = true.
Proof.
  rewrite !eq_rank. intros (a & Hx & Hy) (b & Hy' & Hz).
  exists a. split; congruence.
Qed.

Lemma lt_irrefl_eq x y : lt x y = true -> eq x y = false.
Proof.
  intros H. apply not_true_is_false. revert H.
  rewrite lt_rank, eq_rank. intros (a & b & Ha & Hb & Hl) (c & Ha' & Hb').
  assert (a = b) as E by congruence. apply lex3_Eq in E. congruence.
Qed.

Lemma lt_trans x y z : lt x y = true -> lt y z = true -> lt x z = true.
Proof.
  rewrite !lt_rank. intros (a & b & Ha & Hb & Hab) (b' & c & Hb' & Hc & Hbc).
  assert (b' = b) by congruence; subst b'.
  exists a, c. repeat split; eauto using lex3_Lt_trans.
Qed.

Lemma lt_le x y : lt x y = true -> le x y = true.
Proof.
  rewrite lt_rank, le_rank. intros (a & b & Ha & Hb & Hab).
  exists a, b. repeat split; congruence.
Qed.

Lemma le_lt_trans x y z : le x y = true -> lt y z = true -> lt x z = true.
Proof.
  rewrite le_rank, !lt_rank. intros (a & b & Ha & Hb & Hab) (b' & c & Hb' & Hc & Hbc).
  assert (b' = b) by congruence; subst b'.
  exists a, c. repeat split; trivial.
  destruct (lex3_total _ _ Hab) as [Hl | ->]; eauto using lex3_Lt_trans.
Qed.

Lemma le_lt_le x y z : le x y = true -> lt y z = true -> le x z = true.
Proof. eauto using lt_le, le_lt_trans. Qed.

End F64Facts.

Module GoMapFacts.
Import GoMap.

Lemma lookup_set_same m k v :
  F64.eq k k = true -> lookup (set m k v) k = Some v.
Proof.
  intros Hk. induction m as [|[k' v'] m IH]; cbn [lookup set].
  - now rewrite Hk.
  - destruct (F64.eq k' k) eqn:E; cbn [lookup].
    + now rewrite Hk.
    + now rewrite E.
Qed.

Lemma lookup_set_other m k v j :
  F64.eq k j = false -> lookup (set m k v) j = lookup m j.
Proof.
  intros Hkj. induction m as [|[k' v'] m IH]; cbn [lookup set].
  - now rewrite Hkj.
  - destruct (F64.eq k' k) eqn:E; cbn [lookup set].
    + rewrite Hkj. destruct (F64.eq k' j) eqn:E'; trivial.
      rewrite F64Facts.eq_sym in E.
      now rewrite (F64Facts.eq_trans _ _ _ E E') in Hkj.
    + now rewrite IH.
Qed.

Lemma get_incr_same m k :
  F64.eq k k = true -> get (incr m k) k = uint64_wrap (get m k + 1).
Proof.
  intros Hk. unfold incr, get at 1. now rewrite lookup_set_same.
Qed.

Lemma get_incr_other m k j :
  F64.eq k j = false -> get (incr m k) j = get m j.
Proof.
  intros Hkj. unfold incr, get. now rewrite lookup_set_other.
Qed.

Lemma lookup_incr_other m k j :
  F64.eq k j = false -> lookup (incr m k) j = lookup m j.
Proof. apply lookup_set_other. Qed.

End GoMapFacts.

(** ** The bucketing loops *)

Section Bucketing.

Local Open Scope float_scope.

Lemma strictly_increasing_cons a rest :
  strictly_increasing (a :: rest) = true ->
  strictly_increasing rest = true /\
  forall b, In b rest -> F64.lt a b = true.
Proof.
  revert a. induction rest as [|c rest IH]; intros a H.
  - split; [reflexivity | intros b []].
  - cbn [strictly_increasing] in H. apply andb_true_iff in H as [Hac Hrest].
    split; [exact Hrest|].
    intros b [<- | Hb]; [exact Hac|].
    destruct (IH c Hrest) as [_ Hc].
    eapply F64Facts.lt_trans; eauto.
Qed.

Lemma all_positive_In bounds b :
  all_positive bounds = true -> In b bounds -> F64.lt 0 b = true.
Proof.
  unfold all_positive. rewrite forallb_forall. auto.
Qed.

Lemma all_positive_cons a rest :
  all_positive (a :: rest) = true ->
  F64.eq a a = true /\ all_positive rest = true.
Proof.
  unfold all_positive. cbn [forallb]. rewrite andb_true_iff.
  intros [Ha Hr]. split; [eapply F64Facts.lt_eq_refl_r; eauto | exact Hr].
Qed.

Lemma bucketLoop_cons num a rest m :
  bucketLoop num (a :: rest) m =
  bucketLoop num rest (if F64.le num a then GoMap.incr m a else m).
Proof. reflexivity. Qed.

(** A bound that is not among those visited keeps its entry. *)
Lemma bucketLoop_lookup_other num bounds j :
  (forall k, In k bounds -> F64.eq k j = false) ->
  forall m, GoMap.lookup (bucketLoop num bounds m) j = GoMap.lookup m j.
Proof.
  induction bounds as [|a rest IH]; intros Hj m; [reflexivity|].
  rewrite bucketLoop_cons, IH by (intros; apply Hj; now right).
  destruct (F64.le num a); [|reflexivity].
  apply GoMapFacts.lookup_incr_other, Hj. now left.
Qed.

(** One observation against the bounds: the entry of a bound that admits
    it is incremented once, the entry of another bound is untouched. *)
Lemma bucketLoop_lookup num bounds b :
  strictly_increasing bounds = true ->
  all_positive bounds = true ->
  In b bounds ->
  forall m,
    GoMap.lookup (bucketLoop num bounds m) b =
    if F64.le num b then Some (uint64_wrap (GoMap.get m b + 1))
    else GoMap.lookup m b.
Proof.
  induction bounds as [|a rest IH]; intros Hs Hp Hin m; [destruct Hin|].
  apply strictly_increasing_cons in Hs as [Hs Hlt].
  apply all_positive_cons in Hp as [Ha Hp].
  rewrite bucketLoop_cons.
  destruct Hin as [-> | Hin].
  - rewrite bucketLoop_lookup_other.
    + destruct (F64.le num b); [|reflexivity].
      unfold GoMap.incr. now apply GoMapFacts.lookup_set_same.
    + intros k Hk. rewrite F64Facts.eq_sym. apply F64Facts.lt_irrefl_eq. auto.
  - rewrite (IH Hs Hp Hin).
    assert (F64.eq a b = false) as Hab by (apply F64Facts.lt_irrefl_eq; auto).
    destruct (F64.le num a).
    + now rewrite GoMapFacts.get_incr_other, GoMapFacts.lookup_incr_other.
    + reflexivity.
Qed.

Lemma count_le_cons num rest b :
  count_le (num :: rest) b =
  if F64.le num b then S (count_le rest b) else count_le rest b.
Proof.
  unfold count_le. cbn [filter]. now destruct (F64.le num b).
Qed.

Lemma uint64_wrap_succ x n :
  uint64_wrap (uint64_wrap (x + 1) + Z.of_nat (S n)) =
  uint64_wrap (x + Z.of_nat (S (S n))).
Proof.
  unfold uint64_wrap. rewrite Zplus_mod_idemp_l. f_equal. lia.
Qed.

Lemma numbersLoop_cons bounds num rest sum buckets :
  numbersLoop bounds (num :: rest) (sum, buckets) =
  numbersLoop bounds rest (sum + num, bucketLoop num bounds buckets).
Proof. reflexivity. Qed.

Lemma numbersLoop_sum bounds numbers :
  forall sum buckets,
    fst (numbersLoop bounds numbers (sum, buckets)) = sum_from sum numbers.
Proof.
  induction numbers as [|num rest IH]; intros sum buckets; [reflexivity|].
  rewrite numbersLoop_cons. apply IH.
Qed.

(** The entry of a bound after all observations: untouched while no
    observation is at most the bound, otherwise the old count plus the
    number of such observations, modulo [2^64]. *)
Lemma numbersLoop_lookup bounds numbers b :
  strictly_increasing bounds = true ->
  all_positive bounds = true ->
  In b bounds ->
  forall sum buckets,
    GoMap.lookup (snd (numbersLoop bounds numbers (sum, buckets))) b =
    match count_le numbers b with
    | O => GoMap.lookup buckets b
    | S n => Some (uint64_wrap (GoMap.get buckets b + Z.of_nat (S n)))
    end.
Proof.
  intros Hs Hp Hin.
  induction numbers as [|num rest IH]; intros sum buckets; [reflexivity|].
  rewrite numbersLoop_cons, IH, count_le_cons.
  unfold GoMap.get at 1.
  rewrite !(bucketLoop_lookup num bounds b Hs Hp Hin).
  destruct (F64.le num b).
  - destruct (count_le rest b) as [|n]; [reflexivity|].
    now rewrite uint64_wrap_succ.
  - reflexivity.
Qed.

End Bucketing.

(** ** The exporter made at startup *)

Lemma installed_inv m w :
  installed m w ->
  numReports m = numReportsDesc /\
  resolvedTimeSeconds m = resolvedTimeSecondsDesc /\
  gaugeDesc (errors m) = errorsDesc /\
  (gaugeAddr (errors m) < List.length (gauges w))%nat.
Proof.
  intros (pool & w0 & w1 & Hnew & Hlen).
  unfold newExporter, bind, NewGauge, ret in Hnew.
  injection Hnew as <- <-. cbn in *.
  rewrite length_app in Hlen. cbn in Hlen.
  repeat split; lia.
Qed.

Lemma installed_set_store m w s : installed m w -> installed m (set_store s w).
Proof. intros (pool & w0 & w1 & H & Hl). exists pool, w0, w1. auto. Qed.

Lemma installed_set_buckets m w bs :
  installed m w -> installed m (set_buckets bs w).
Proof. intros (pool & w0 & w1 & H & Hl). exists pool, w0, w1. auto. Qed.

Lemma installed_set_chan m w c : installed m w -> installed m (set_chan c w).
Proof. intros (pool & w0 & w1 & H & Hl). exists pool, w0, w1. auto. Qed.

Lemma installed_set_trace m w t : installed m w -> installed m (set_trace t w).
Proof. intros (pool & w0 & w1 & H & Hl). exists pool, w0, w1. auto. Qed.

Lemma startup_installed s :
  exists m w, startup s = Returned m w /\ installed m w.
Proof.
  unfold startup. eexists _, _. split; [reflexivity|].
  exists pgxpool, (World_init s). eexists. split; [reflexivity|]. apply le_n.
Qed.

Lemma resolvedMetricFromNums_returns m w numbers :
  installed m w ->
  resolvedMetricFromNums m numbers w =
  Returned (histogramOf m (resolutionTimeBuckets w) numbers) w.
Proof.
  intros Hm. apply installed_inv in Hm as (_ & Hd & _).
  unfold resolvedMetricFromNums, bind, readBuckets, histogramOf.
  destruct (numbersLoop _ _ _) as [sum buckets].
  unfold MustNewConstHistogram, NewConstHistogram. rewrite Hd. reflexivity.
Qed.

Lemma uint64_wrap_small z : 0 <= z <= max_int -> uint64_wrap z = z.
Proof.
  unfold uint64_wrap, max_int. intros H. apply Z.mod_small. lia.
Qed.

Lemma count_le_length numbers b : (count_le numbers b <= List.length numbers)%nat.
Proof. apply filter_length_le. Qed.

Lemma count_le_app xs ys b :
  count_le (xs ++ ys) b = (count_le xs b + count_le ys b)%nat.
Proof. unfold count_le. now rewrite filter_app, length_app. Qed.

Lemma count_le_mono numbers b1 b2 :
  F64.lt b1 b2 = true -> (count_le numbers b1 <= count_le numbers b2)%nat.
Proof.
  intros Hlt. induction numbers as [|d rest IH]; [apply le_n|].
  rewrite !count_le_cons.
  destruct (F64.le d b1) eqn:E.
  - rewrite (F64Facts.le_lt_le _ _ _ E Hlt). lia.
  - destruct (F64.le d b2); lia.
Qed.

Lemma sum_from_app acc xs ys :
  sum_from acc (xs ++ ys) = sum_from (sum_from acc xs) ys.
Proof. revert acc. induction xs as [|x xs IH]; intros acc; cbn; auto. Qed.

(** The count of a bound, without wrap-around while the slice has a legal
    length. *)
Lemma bucketCount_histogramOf m bounds numbers b :
  strictly_increasing bounds = true ->
  all_positive bounds = true ->
  Z.of_nat (List.length numbers) <= max_int ->
  In b bounds ->
  bucketCount (histogramOf m bounds numbers) b = Z.of_nat (count_le numbers b).
Proof.
  intros Hs Hp Hlen Hin. unfold bucketCount, histogramOf, histBuckets, GoMap.get.
  rewrite (numbersLoop_lookup bounds numbers b Hs Hp Hin).
  pose proof (count_le_length numbers b) as Hc.
  destruct (count_le numbers b) as [|n]; [reflexivity|].
  cbn [GoMap.lookup GoMap.make]. apply uint64_wrap_small. lia.
Qed.

(** Whether the map holds an entry for a bound at all. *)
Lemma lookup_histogramOf m bounds numbers b :
  strictly_increasing bounds = true ->
  all_positive bounds = true ->
  In b bounds ->
  GoMap.lookup (histBuckets (histogramOf m bounds numbers)) b =
  match count_le numbers b with
  | O => None
  | S n => Some (uint64_wrap (Z.of_nat (S n)))
  end.
Proof.
  intros Hs Hp Hin. unfold histogramOf, histBuckets.
  rewrite (numbersLoop_lookup bounds numbers b Hs Hp Hin).
  destruct (count_le numbers b); reflexivity.
Qed.

Lemma histSum_histogramOf m bounds numbers :
  histSum (histogramOf m bounds numbers) = sum_of numbers.
Proof. apply numbersLoop_sum. Qed.

Lemma histCount_histogramOf m bounds numbers :
  Z.of_nat (List.length numbers) <= max_int ->
  histCount (histogramOf m bounds numbers) = Z.of_nat (List.length numbers).
Proof. intros H. apply uint64_wrap_small. lia. Qed.

Lemma example_startup :
  startup exampleStore = Returned exampleExporter exampleWorld.
Proof. reflexivity. Defined.

Lemma example_installed : installed exampleExporter exampleWorld.
Proof.
  exists pgxpool, (World_init exampleStore), exampleWorld.
  split; [reflexivity | apply le_n].
Defined.

Section Scrape.

(** Runs what is left of a straight-line computation and compares the two
    worlds field by field. *)
Ltac finish_run :=
  unfold bind, ret, send, logError, emit, GaugeSet,
    set_gauges, set_chan, set_trace;
  cbn [store resolutionTimeBuckets gauges chan trace];
  rewrite <- ?app_assoc; reflexivity.

Lemma getResolvedStats_spec m w :
  installed m w ->
  getResolvedStats m w =
  Returned
    match resolutionTimes (store w) with
    | inr err => inr (wrapError "querying database: " err)
    | inl rows =>
        match CollectRows rows scanNumber with
        | inr err => inr (wrapError "scanning rows: " err)
        | inl numbers => inl (histogramOf m (resolutionTimeBuckets w) numbers)
        end
    end
    (set_trace (trace w ++ [Queried SelectResolutionTimes]) w).
Proof.
  intros Hm.
  unfold getResolvedStats, query, bind, emit.
  cbn [store set_trace].
  destruct (resolutionTimes (store w)) as [rows | err]; [|reflexivity].
  destruct (CollectRows rows scanNumber) as [numbers | err]; [|reflexivity].
  rewrite resolvedMetricFromNums_returns by now apply installed_set_trace.
  reflexivity.
Qed.

Lemma scrape_spec m w :
  installed m w -> scrape m w = Returned tt (scrapeWorld m w).
Proof.
  intros Hm. pose proof (installed_inv m w Hm) as (Hn & _ & _ & _).
  unfold scrape, bind at 1, getNumReports, queryRow, bind at 1, emit.
  cbn [store set_trace].
  unfold scrapeWorld, reportSamples, reportTrace, durationSamples,
    durationTrace, durationError, failures, reportsFail, durationsFail.
  destruct (reportCounts (store w)) as [[resolved unresolved] [err|]].
  - unfold bind at 1, logError, bind at 1, emit, ret, bind at 1.
    rewrite getResolvedStats_spec
      by now apply installed_set_trace, installed_set_trace.
    cbn [store set_trace resolutionTimeBuckets trace chan gauges].
    destruct (resolutionTimes (store w)) as [rows | err'].
    + destruct (CollectRows rows scanNumber) as [numbers | err']; finish_run.
    + finish_run.
  - unfold MustNewConstMetric, NewConstMetric. rewrite Hn.
    cbn [validateLabelValues variableLabels numReportsDesc List.length Nat.eqb].
    unfold bind at 1, bind at 1, ret at 1, bind at 1, send at 1, bind at 1,
      bind at 1, ret at 1, bind at 1, send at 1, bind at 1, ret at 1,
      bind at 1.
    rewrite getResolvedStats_spec
      by now apply installed_set_chan, installed_set_chan, installed_set_trace.
    cbn [store set_trace set_chan resolutionTimeBuckets trace chan gauges].
    destruct (resolutionTimes (store w)) as [rows | err'].
    + destruct (CollectRows rows scanNumber) as [numbers | err']; finish_run.
    + finish_run.
Qed.

End Scrape.

(** ** Facts about the heap, the channel and the cursor *)

Lemma length_update_cell cells addr v :
  List.length (update_cell cells addr v) = List.length cells.
Proof.
  revert addr. induction cells as [|c cells IH]; intros [|addr]; cbn; auto.
Qed.

Lemma nth_update_cell cells addr v d :
  (addr < List.length cells)%nat -> nth addr (update_cell cells addr v) d = v.
Proof.
  revert addr. induction cells as [|c cells IH]; intros [|addr] H; cbn in *;
    try lia; auto. apply IH. lia.
Qed.

Lemma nth_update_cell_other cells addr v a d :
  a <> addr -> nth a (update_cell cells addr v) d = nth a cells d.
Proof.
  revert addr a. induction cells as [|c cells IH]; intros [|addr] [|a] H; cbn;
    try congruence; auto.
Qed.

Lemma skipn_length_app {A} (xs ys : list A) :
  skipn (List.length xs) (xs ++ ys) = ys.
Proof. induction xs as [|x xs IH]; cbn; auto. Qed.

Lemma emitted_scrapeWorld m w :
  emitted w (scrapeWorld m w) =
  reportSamples m (store w)
    ++ durationSamples m (resolutionTimeBuckets w) (store w)
    ++ [gaugeMetric (errors m)].
Proof. unfold emitted, scrapeWorld. cbn [chan]. apply skipn_length_app. Qed.

Lemma gaugeValue_scrapeWorld m w :
  installed m w ->
  gaugeValue (scrapeWorld m w) (errors m) = float64_of_int (failures (store w)).
Proof.
  intros Hm. apply installed_inv in Hm as (_ & _ & _ & Ha).
  unfold gaugeValue, scrapeWorld. cbn [gauges]. now apply nth_update_cell.
Qed.

Lemma installed_scrapeWorld m w : installed m w -> installed m (scrapeWorld m w).
Proof.
  intros (pool & w0 & w1 & H & Hl). exists pool, w0, w1. split; [exact H|].
  unfold scrapeWorld. cbn [gauges]. now rewrite length_update_cell.
Qed.

Lemma collectLoop_all_scan numbers acc :
  collectLoop (map inl numbers) scanNumber acc = inl (acc ++ numbers).
Proof.
  revert acc. induction numbers as [|n rest IH]; intros acc; cbn.
  - now rewrite app_nil_r.
  - rewrite IH, <- app_assoc. reflexivity.
Qed.

Lemma collectLoop_bad_row good err rest acc :
  collectLoop (map inl good ++ inr err :: rest) scanNumber acc =
  inr (wrapError "scanning row: " err).
Proof.
  revert acc. induction good as [|n good IH]; intros acc; cbn; auto.
Qed.

(** Either every row scans, or there is a first row that does not. *)
Lemma rows_decompose (scans : list (float + error)) :
  (exists numbers, scans = map inl numbers) \/
  (exists good err rest, scans = map inl good ++ inr err :: rest).
Proof.
  induction scans as [|[n | err] scans IH].
  - left. now exists [].
  - destruct IH as [(numbers & ->) | (good & err & rest & ->)].
    + left. now exists (n :: numbers).
    + right. now exists (n :: good), err, rest.
  - right. now exists [], err, scans.
Qed.

Lemma CollectRows_all_scan rows numbers :
  rowScans rows = map inl numbers ->
  CollectRows rows scanNumber =
  match rowsErr rows with
  | Some err => inr err
  | None => inl numbers
  end.
Proof.
  intros H. unfold CollectRows. now rewrite H, collectLoop_all_scan.
Qed.

Lemma CollectRows_bad_row rows good err rest :
  rowScans rows = map inl good ++ inr err :: rest ->
  CollectRows rows scanNumber = inr (wrapError "scanning row: " err).
Proof.
  intros H. unfold CollectRows. now rewrite H, collectLoop_bad_row.
Qed.

Lemma CollectRows_inl rows numbers :
  CollectRows rows scanNumber = inl numbers ->
  rowScans rows = map inl numbers /\ rowsErr rows = None.
Proof.
  intros H.
  destruct (rows_decompose (rowScans rows))
    as [(ns & Hs) | (good & err & rest & Hs)].
  - rewrite (CollectRows_all_scan _ _ Hs) in H.
    destruct (rowsErr rows); [discriminate|]. now injection H as <-.
  - rewrite (CollectRows_bad_row _ _ _ _ Hs) in H. discriminate.
Qed.

Lemma failures_range s : 0 <= failures s <= 2.
Proof.
  unfold failures. destruct (reportsFail s), (durationsFail s); cbn; lia.
Qed.

Lemma reportSamples_fail m s : reportsFail s = true -> reportSamples m s = [].
Proof.
  unfold reportsFail, reportSamples.
  destruct (reportCounts s) as [[r u] [e|]]; [reflexivity | discriminate].
Qed.

Lemma durationSamples_fail m bounds s :
  durationsFail s = true -> durationSamples m bounds s = [].
Proof.
  unfold durationsFail, durationSamples.
  destruct (resolutionTimes s) as [rows | e]; [|reflexivity].
  destruct (CollectRows rows scanNumber); [discriminate | reflexivity].
Qed.

Lemma reportSamples_ok m s :
  reportsFail s = false ->
  exists resolved unresolved,
    reportCounts s = (resolved, unresolved, None) /\
    reportSamples m s =
    [constMetric (numReports m) GaugeValue (float64_of_int resolved)
                 ["true"%string];
     constMetric (numReports m) GaugeValue (float64_of_int unresolved)
                 ["false"%string]].
Proof.
  unfold reportsFail, reportSamples.
  destruct (reportCounts s) as [[r u] [e|]]; [discriminate|]. eauto.
Qed.

Lemma durationSamples_ok m bounds s :
  durationsFail s = false ->
  exists rows numbers,
    resolutionTimes s = inl rows /\
    rowScans rows = map inl numbers /\ rowsErr rows = None /\
    durationSamples m bounds s = [histogramOf m bounds numbers].
Proof.
  unfold durationsFail, durationSamples.
  destruct (resolutionTimes s) as [rows | e]; [|discriminate].
  destruct (CollectRows rows scanNumber) as [numbers | e] eqn:E;
    [|discriminate].
  apply CollectRows_inl in E as [Hs He]. intros _. now exists rows, numbers.
Qed.

Lemma issued_scrapeWorld m w :
  issued w (scrapeWorld m w) = [SelectReportCounts; SelectResolutionTimes].
Proof.
  unfold issued, scrapeWorld. cbn [trace]. rewrite skipn_length_app.
  unfold reportTrace, durationTrace.
  destruct (reportCounts (store w)) as [[r u] [e|]],
           (durationError (store w)); reflexivity.
Qed.

Lemma example_installed_at s : installed exampleExporter (set_store s exampleWorld).
Proof.
  exists pgxpool, (World_init exampleStore), exampleWorld.
  split; [reflexivity | apply le_n].
Defined.

(** ** The bucketing engine *)

(** C1: for strictly increasing positive bounds and any observations (a Go
    slice, so of length at most [max_int]), [resolvedMetricFromNums] returns
    a histogram whose count at every bound [b] is the number of observations
    [d <= b], whose sum is the binary64 sum of the observations in their
    order and whose total count is their number. With the bounds of
    [main.go] and the observations 45, 500, 3700 the counts are 1, 2, 2, 2
    and then 3, the sum is 4245 and the count is 3. *)
Theorem resolvedMetricFromNums_cumulative :
  (forall m w numbers,
      installed m w ->
      strictly_increasing (resolutionTimeBuckets w) = true ->
      all_positive (resolutionTimeBuckets w) = true ->
      Z.of_nat (List.length numbers) <= max_int ->
      exists h,
        resolvedMetricFromNums m numbers w = Returned h w /\
        isHistogram h = true /\
        (forall b, In b (resolutionTimeBuckets w) ->
                   bucketCount h b = Z.of_nat (count_le numbers b)) /\
        histSum h = sum_of numbers /\
        histCount h = Z.of_nat (List.length numbers))
  /\
  (exists h,
      resolvedMetricFromNums exampleExporter [45; 500; 3700]%float exampleWorld
      = Returned h exampleWorld /\
      resolutionTimeBuckets exampleWorld =
      [60; 600; 1800; 3600; 14400; 28800; 86400; 172800; 604800]%float /\
      bucketCount h 60%float = 1 /\
      bucketCount h 600%float = 2 /\
      bucketCount h 1800%float = 2 /\
      bucketCount h 3600%float = 2 /\
      bucketCount h 14400%float = 3 /\
      bucketCount h 28800%float = 3 /\
      bucketCount h 86400%float = 3 /\
      bucketCount h 172800%float = 3 /\
      bucketCount h 604800%float = 3 /\
      histSum h = 4245%float /\
      histCount h = 3).
Proof.
  split.
  - intros m w numbers Hm Hs Hp Hlen.
    exists (histogramOf m (resolutionTimeBuckets w) numbers).
    split; [now apply resolvedMetricFromNums_returns|].
    split; [reflexivity|].
    split; [|split].
    + intros b Hb. now apply bucketCount_histogramOf.
    + apply histSum_histogramOf.
    + now apply histCount_histogramOf.
  - eexists. split; [reflexivity|]. vm_compute. repeat split; reflexivity.
Qed.

Lemma resolvedMetricFromNums_cumulative_witness :
  exists h,
    resolvedMetricFromNums exampleExporter [45; 500; 3700]%float exampleWorld
    = Returned h exampleWorld /\
    isHistogram h = true /\
    (forall b, In b (resolutionTimeBuckets exampleWorld) ->
               bucketCount h b = Z.of_nat (count_le [45; 500; 3700]%float b)) /\
    histSum h = sum_of [45; 500; 3700]%float /\
    histCount h = 3.
Proof.
  apply (proj1 resolvedMetricFromNums_cumulative exampleExporter exampleWorld
               [45; 500; 3700]%float example_installed).
  - reflexivity.
  - reflexivity.
  - vm_compute. discriminate.
Defined.

(** C4, as stated: with no observation the map would hold a zero entry for
    every bound. It does not: [make] gives an empty map and only an
    increment creates an entry, so the bound 60 of [main.go] has none. *)
Lemma resolvedMetricFromNums_empty_no_entry :
  exists h,
    resolvedMetricFromNums exampleExporter [] exampleWorld
    = Returned h exampleWorld /\
    In 60%float (resolutionTimeBuckets exampleWorld) /\
    GoMap.lookup (histBuckets h) 60%float = None /\
    GoMap.lookup (histBuckets h) 60%float <> Some 0.
Proof.
  eexists. split; [reflexivity|].
  split; [now left|]. split; [reflexivity | discriminate].
Qed.

(** C4, amended: for every list of bounds, [resolvedMetricFromNums] on no
    observations returns (it does not panic) a histogram whose map is empty,
    so that it holds no entry for any bound and a read at any bound gives
    zero, whose sum is [+0] and whose total count is zero. *)
Theorem resolvedMetricFromNums_empty :
  forall m w,
    installed m w ->
    exists h,
      resolvedMetricFromNums m [] w = Returned h w /\
      isHistogram h = true /\
      histBuckets h = GoMap.make /\
      GoMap.len (histBuckets h) = 0 /\
      (forall b, GoMap.lookup (histBuckets h) b = None /\ bucketCount h b = 0) /\
      histSum h = 0%float /\
      histCount h = 0.
Proof.
  intros m w Hm.
  exists (histogramOf m (resolutionTimeBuckets w) []).
  split; [now apply resolvedMetricFromNums_returns|].
  repeat split.
Qed.

Lemma resolvedMetricFromNums_empty_witness :
  exists h,
    resolvedMetricFromNums exampleExporter [] exampleWorld
    = Returned h exampleWorld /\
    isHistogram h = true /\
    histBuckets h = GoMap.make /\
    GoMap.len (histBuckets h) = 0 /\
    (forall b, GoMap.lookup (histBuckets h) b = None /\ bucketCount h b = 0) /\
    histSum h = 0%float /\
    histCount h = 0.
Proof.
  apply (resolvedMetricFromNums_empty exampleExporter exampleWorld).
  exact example_installed.
Defined.

(** C8: for strictly increasing positive bounds and any observations, the
    counts do not decrease along the bounds, and no count exceeds the total
    count (the [+Inf] bucket). *)
Theorem resolvedMetricFromNums_monotone :
  forall m w numbers,
    installed m w ->
    strictly_increasing (resolutionTimeBuckets w) = true ->
    all_positive (resolutionTimeBuckets w) = true ->
    Z.of_nat (List.length numbers) <= max_int ->
    exists h,
      resolvedMetricFromNums m numbers w = Returned h w /\
      (forall b1 b2,
          In b1 (resolutionTimeBuckets w) ->
          In b2 (resolutionTimeBuckets w) ->
          F64.lt b1 b2 = true ->
          bucketCount h b1 <= bucketCount h b2) /\
      (forall b, In b (resolutionTimeBuckets w) ->
                 bucketCount h b <= histCount h).
Proof.
  intros m w numbers Hm Hs Hp Hlen.
  exists (histogramOf m (resolutionTimeBuckets w) numbers).
  split; [now apply resolvedMetricFromNums_returns|].
  split.
  - intros b1 b2 H1 H2 Hlt.
    rewrite !bucketCount_histogramOf by assumption.
    apply inj_le. now apply count_le_mono.
  - intros b Hb.
    rewrite bucketCount_histogramOf, histCount_histogramOf by assumption.
    apply inj_le, count_le_length.
Qed.

Lemma resolvedMetricFromNums_monotone_witness :
  exists h,
    resolvedMetricFromNums exampleExporter [45; 500; 3700]%float exampleWorld
    = Returned h exampleWorld /\
    (forall b1 b2,
        In b1 (resolutionTimeBuckets exampleWorld) ->
        In b2 (resolutionTimeBuckets exampleWorld) ->
        F64.lt b1 b2 = true ->
        bucketCount h b1 <= bucketCount h b2) /\
    (forall b, In b (resolutionTimeBuckets exampleWorld) ->
               bucketCount h b <= histCount h).
Proof.
  apply (resolvedMetricFromNums_monotone exampleExporter exampleWorld
           [45; 500; 3700]%float example_installed).
  - reflexivity.
  - reflexivity.
  - vm_compute. discriminate.
Defined.

(** C10: [resolvedMetricFromNums] returns for every sequence of
    observations, with no test of their sign; and an observation below zero,
    wherever it stands in the sequence, is added to the running sum, counts
    in the total and raises by one the count of every (positive) bound. *)
Theorem resolvedMetricFromNums_negative :
  (forall m w numbers,
      installed m w ->
      returned (resolvedMetricFromNums m numbers w) = true)
  /\
  (forall m w before d after,
      installed m w ->
      strictly_increasing (resolutionTimeBuckets w) = true ->
      all_positive (resolutionTimeBuckets w) = true ->
      F64.lt d 0%float = true ->
      Z.of_nat (List.length (before ++ d :: after)) <= max_int ->
      exists h0 h,
        resolvedMetricFromNums m (before ++ after) w = Returned h0 w /\
        resolvedMetricFromNums m (before ++ d :: after) w = Returned h w /\
        histSum h = sum_from (sum_of before + d)%float after /\
        histCount h = histCount h0 + 1 /\
        (forall b, In b (resolutionTimeBuckets w) ->
                   bucketCount h b = bucketCount h0 b + 1)).
Proof.
  split.
  - intros m w numbers Hm. now rewrite resolvedMetricFromNums_returns.
  - intros m w before d after Hm Hs Hp Hd Hlen.
    exists (histogramOf m (resolutionTimeBuckets w) (before ++ after)),
           (histogramOf m (resolutionTimeBuckets w) (before ++ d :: after)).
    rewrite length_app in Hlen. cbn [List.length] in Hlen.
    assert (Z.of_nat (List.length (before ++ after)) <= max_int) as Hlen0
        by (rewrite length_app; lia).
    assert (Z.of_nat (List.length (before ++ d :: after)) <= max_int) as Hlen1
        by (rewrite length_app; cbn [List.length]; lia).
    split; [now apply resolvedMetricFromNums_returns|].
    split; [now apply resolvedMetricFromNums_returns|].
    split; [|split].
    + rewrite histSum_histogramOf. unfold sum_of. now rewrite sum_from_app.
    + rewrite !histCount_histogramOf by assumption.
      rewrite !length_app. cbn [List.length]. lia.
    + intros b Hb. rewrite !bucketCount_histogramOf by assumption.
      rewrite !count_le_app, count_le_cons.
      assert (F64.le d b = true) as ->
          by (eapply F64Facts.lt_le, F64Facts.lt_trans; eauto using all_positive_In).
      lia.
Qed.

Lemma resolvedMetricFromNums_negative_witness :
  let w := set_buckets [0.5; 10; 1000]%float exampleWorld in
  exists h0 h,
    resolvedMetricFromNums exampleExporter ([45] ++ [500])%float w
    = Returned h0 w /\
    resolvedMetricFromNums exampleExporter ([45] ++ (-5) :: [500])%float w
    = Returned h w /\
    histSum h = sum_from (sum_of [45] + (-5))%float [500%float] /\
    histCount h = histCount h0 + 1 /\
    (forall b, In b (resolutionTimeBuckets w) ->
               bucketCount h b = bucketCount h0 b + 1).
Proof.
  apply (proj2 resolvedMetricFromNums_negative exampleExporter
               (set_buckets [0.5; 10; 1000]%float exampleWorld)
               [45%float] (-5)%float [500%float]
               (installed_set_buckets _ _ _ example_installed)).
  - reflexivity.
  - reflexivity.
  - reflexivity.
  - vm_compute. discriminate.
Defined.

(** ** The query layer *)

(** C7: [getResolvedStats] returns either the histogram of all the rows or
    an error. When [Query] fails it returns that error, wrapped as the
    failure of the query; when a row does not scan it returns the error of
    the first such row, wrapped as a row-scan failure, and nothing of the
    rows that did scan; and whenever it returns a histogram, every row was
    scanned and went into it. *)
Theorem getResolvedStats_all_or_error :
  forall m w,
    installed m w ->
    (exists r, getResolvedStats m w =
               Returned r (set_trace (trace w ++ [Queried SelectResolutionTimes]) w)) /\
    (forall err,
        resolutionTimes (store w) = inr err ->
        exists w',
          getResolvedStats m w =
          Returned (inr (wrapError "querying database: " err)) w') /\
    (forall rows good err rest,
        resolutionTimes (store w) = inl rows ->
        rowScans rows = map inl good ++ inr err :: rest ->
        exists w',
          getResolvedStats m w =
          Returned (inr (wrapError "scanning rows: "
                           (wrapError "scanning row: " err))) w') /\
    (forall rows numbers,
        resolutionTimes (store w) = inl rows ->
        rowScans rows = map inl numbers ->
        rowsErr rows = None ->
        exists w',
          getResolvedStats m w =
          Returned (inl (histogramOf m (resolutionTimeBuckets w) numbers)) w') /\
    (forall h w',
        getResolvedStats m w = Returned (inl h) w' ->
        exists rows numbers,
          resolutionTimes (store w) = inl rows /\
          rowScans rows = map inl numbers /\
          rowsErr rows = None /\
          List.length numbers = List.length (rowScans rows) /\
          h = histogramOf m (resolutionTimeBuckets w) numbers).
Proof.
  intros m w Hm. rewrite (getResolvedStats_spec m w Hm).
  split; [eauto|]. split; [|split; [|split]].
  - intros err ->. eauto.
  - intros rows good err rest -> Hs.
    rewrite (CollectRows_bad_row _ _ _ _ Hs). eauto.
  - intros rows numbers -> Hs He.
    rewrite (CollectRows_all_scan _ _ Hs), He. eauto.
  - intros h w' H.
    destruct (resolutionTimes (store w)) as [rows | err]; [|discriminate].
    destruct (CollectRows rows scanNumber) as [numbers | err] eqn:E;
      [|discriminate].
    apply CollectRows_inl in E as [Hs He].
    exists rows, numbers. repeat split; trivial.
    + now rewrite Hs, length_map.
    + congruence.
Qed.

Lemma getResolvedStats_all_or_error_witness :
  exists w',
    getResolvedStats exampleExporter (set_store badRowStore exampleWorld) =
    Returned (inr (wrapError "scanning rows: "
                     (wrapError "scanning row: "
                        (errorString "cannot scan NULL into *float64")))) w'.
Proof.
  apply (proj1 (proj2 (proj2
           (getResolvedStats_all_or_error exampleExporter
              (set_store badRowStore exampleWorld)
              (example_installed_at badRowStore))))
           badRows [45%float] (errorString "cannot scan NULL into *float64")
           [inl 500%float]); reflexivity.
Defined.

(** ** The orchestrator *)

(** The cast [float64(n)] is exact on small counts and rounds from [2^53]
    on. *)
Example float64_of_int_small :
  float64_of_int 0 = 0%float /\ float64_of_int 1 = 1%float /\
  float64_of_int 2 = 2%float /\ float64_of_int 3 = 3%float.
Proof. repeat split; reflexivity. Qed.

Example float64_of_int_rounds :
  float64_of_int (2 ^ 53 + 1) = float64_of_int (2 ^ 53).
Proof. vm_compute. reflexivity. Qed.

(** C3: every scrape returns, and the last thing it sends is the gauge
    [errors] (fully qualified, [mastodon_exporter_errors]); nothing else it
    sends bears that name, and the gauge reads as the number of family
    queries that failed in this scrape, between 0 and 2. *)
Theorem scrape_emits_errors_gauge :
  forall m w,
    installed m w ->
    exists w' families,
      scrape m w = Returned tt w' /\
      emitted w w' = families ++ [gaugeMetric (errors m)] /\
      (forall x, In x families ->
                 named (BuildFQName namespace subsystem "errors") x = false) /\
      sampleOf w' (gaugeMetric (errors m)) =
      valueSample (BuildFQName namespace subsystem "errors") GaugeValue []
                  (float64_of_int (failures (store w))) /\
      0 <= failures (store w) <= 2.
Proof.
  intros m w Hm.
  exists (scrapeWorld m w),
         (reportSamples m (store w)
            ++ durationSamples m (resolutionTimeBuckets w) (store w)).
  split; [now apply scrape_spec|].
  split; [now rewrite emitted_scrapeWorld, app_assoc|].
  pose proof (installed_inv m w Hm) as (Hn & Hr & Hg & _).
  split; [|split].
  - intros x Hx. apply in_app_or in Hx as [Hx | Hx].
    + unfold reportSamples in Hx. rewrite Hn in Hx.
      destruct (reportCounts (store w)) as [[r u] [e|]]; [destruct Hx|].
      destruct Hx as [<- | [<- | []]]; reflexivity.
    + unfold durationSamples, histogramOf in Hx. rewrite Hr in Hx.
      destruct (resolutionTimes (store w)) as [rows | e]; [|destruct Hx].
      destruct (CollectRows rows scanNumber); [|destruct Hx].
      destruct Hx as [<- | []]. reflexivity.
  - cbn [sampleOf]. rewrite gaugeValue_scrapeWorld, Hg by assumption.
    reflexivity.
  - apply failures_range.
Qed.

Lemma scrape_emits_errors_gauge_witness :
  exists w' families,
    scrape exampleExporter (set_store durationsDownStore exampleWorld)
    = Returned tt w' /\
    emitted (set_store durationsDownStore exampleWorld) w' =
    families ++ [gaugeMetric (errors exampleExporter)] /\
    (forall x, In x families ->
               named (BuildFQName namespace subsystem "errors") x = false) /\
    sampleOf w' (gaugeMetric (errors exampleExporter)) =
    valueSample (BuildFQName namespace subsystem "errors") GaugeValue []
                (float64_of_int (failures durationsDownStore)) /\
    0 <= failures durationsDownStore <= 2.
Proof.
  apply (scrape_emits_errors_gauge exampleExporter
           (set_store durationsDownStore exampleWorld)).
  exact (example_installed_at durationsDownStore).
Defined.

(** C5: when both family queries fail, the scrape sends the gauge [errors]
    and nothing else, and the gauge reads 2. *)
Theorem scrape_total_failure :
  forall m w,
    installed m w ->
    reportsFail (store w) = true ->
    durationsFail (store w) = true ->
    exists w',
      scrape m w = Returned tt w' /\
      emitted w w' = [gaugeMetric (errors m)] /\
      map (sampleOf w') (emitted w w') =
      [valueSample "mastodon_exporter_errors" GaugeValue [] 2%float].
Proof.
  intros m w Hm Hr Hd. exists (scrapeWorld m w).
  split; [now apply scrape_spec|].
  rewrite emitted_scrapeWorld, reportSamples_fail, durationSamples_fail
    by assumption.
  split; [reflexivity|].
  cbn [app map sampleOf]. rewrite gaugeValue_scrapeWorld by assumption.
  apply installed_inv in Hm as (_ & _ & -> & _).
  unfold failures. rewrite Hr, Hd. reflexivity.
Qed.

Lemma scrape_total_failure_witness :
  exists w',
    scrape exampleExporter (set_store allDownStore exampleWorld)
    = Returned tt w' /\
    emitted (set_store allDownStore exampleWorld) w' =
    [gaugeMetric (errors exampleExporter)] /\
    map (sampleOf w') (emitted (set_store allDownStore exampleWorld) w') =
    [valueSample "mastodon_exporter_errors" GaugeValue [] 2%float].
Proof.
  apply (scrape_total_failure exampleExporter
           (set_store allDownStore exampleWorld)
           (example_installed_at allDownStore)); reflexivity.
Defined.

(** C2: when exactly one of the two family queries fails, the scrape still
    issues both statements (each once) and returns; the gauge [errors]
    reads 1; nothing of the failed family is sent; and the other family is
    sent in full - the histogram of all the rows, or the two report gauges -
    followed by the gauge [errors]. *)
Theorem scrape_partial_failure :
  forall m w,
    installed m w ->
    xorb (reportsFail (store w)) (durationsFail (store w)) = true ->
    exists w',
      scrape m w = Returned tt w' /\
      issued w w' = [SelectReportCounts; SelectResolutionTimes] /\
      gaugeValue w' (errors m) = 1%float /\
      (reportsFail (store w) = true ->
       (forall x, In x (emitted w w') -> metricDesc x <> numReports m) /\
       exists rows numbers,
         resolutionTimes (store w) = inl rows /\
         rowScans rows = map inl numbers /\
         rowsErr rows = None /\
         emitted w w' =
         [histogramOf m (resolutionTimeBuckets w) numbers;
          gaugeMetric (errors m)]) /\
      (durationsFail (store w) = true ->
       (forall x, In x (emitted w w') ->
                  metricDesc x <> resolvedTimeSeconds m) /\
       exists resolved unresolved,
         reportCounts (store w) = (resolved, unresolved, None) /\
         emitted w w' =
         [constMetric (numReports m) GaugeValue (float64_of_int resolved)
                      ["true"%string];
          constMetric (numReports m) GaugeValue (float64_of_int unresolved)
                      ["false"%string];
          gaugeMetric (errors m)]).
Proof.
  intros m w Hm Hx. exists (scrapeWorld m w).
  split; [now apply scrape_spec|].
  split; [apply issued_scrapeWorld|].
  pose proof (installed_inv m w Hm) as (Hn & Hr & Hg & _).
  rewrite gaugeValue_scrapeWorld, emitted_scrapeWorld by assumption.
  unfold failures.
  destruct (reportsFail (store w)) eqn:Er, (durationsFail (store w)) eqn:Ed;
    try discriminate Hx.
  - (* the report query failed, the duration query did not *)
    split; [reflexivity|]. split; [|discriminate].
    intros _. rewrite (reportSamples_fail _ _ Er).
    destruct (durationSamples_ok m (resolutionTimeBuckets w) _ Ed)
      as (rows & numbers & Hq & Hs & He & ->).
    split; [|now exists rows, numbers].
    intros x [<- | [<- | []]]; cbn [metricDesc histogramOf];
      rewrite ?Hn, ?Hr, ?Hg; discriminate.
  - (* the duration query failed, the report query did not *)
    split; [reflexivity|]. split; [discriminate|].
    intros _. rewrite (durationSamples_fail _ _ _ Ed).
    destruct (reportSamples_ok m _ Er) as (r & u & Hq & ->).
    split; [|now exists r, u].
    intros x [<- | [<- | [<- | []]]]; cbn [metricDesc];
      rewrite ?Hn, ?Hr, ?Hg; discriminate.
Qed.

Lemma scrape_partial_failure_witness :
  exists w',
    scrape exampleExporter (set_store reportsDownStore exampleWorld)
    = Returned tt w' /\
    issued (set_store reportsDownStore exampleWorld) w' =
    [SelectReportCounts; SelectResolutionTimes] /\
    gaugeValue w' (errors exampleExporter) = 1%float /\
    emitted (set_store reportsDownStore exampleWorld) w' =
    [histogramOf exampleExporter resolutionTimeBuckets_init
                 [45; 500; 3700]%float;
     gaugeMetric (errors exampleExporter)].
Proof.
  destruct (scrape_partial_failure exampleExporter
              (set_store reportsDownStore exampleWorld)
              (example_installed_at reportsDownStore) eq_refl)
    as (w' & Hrun & Hq & Hg & Hrep & _).
  exists w'. repeat split; trivial.
  destruct (Hrep eq_refl) as (_ & rows & numbers & Hrows & Hs & _ & ->).
  injection Hrows as <-.
  change (map inl [45%float; 500%float; 3700%float] = map (@inl float error) numbers)
    in Hs.
  apply (f_equal (map (fun r : float + error =>
                         match r with inl n => n | inr _ => 0%float end))) in Hs.
  rewrite !map_map, !map_id in Hs. now rewrite <- Hs.
Defined.

(** C6: when the report query returns the counts [resolved] and
    [unresolved], the scrape returns (building the samples does not panic)
    and the samples of the report family it sends are exactly two gauges:
    [resolved="true"] with value [float64(resolved)] and [resolved="false"]
    with value [float64(unresolved)]; as a set, they are that pair in
    either order. *)
Theorem scrape_report_samples :
  forall m w resolved unresolved,
    installed m w ->
    0 <= resolved <= max_int ->
    0 <= unresolved <= max_int ->
    reportCounts (store w) = (resolved, unresolved, None) ->
    exists w',
      scrape m w = Returned tt w' /\
      filter (named "mastodon_exporter_num_reports") (emitted w w') =
      [constMetric (numReports m) GaugeValue (float64_of_int resolved)
                   ["true"%string];
       constMetric (numReports m) GaugeValue (float64_of_int unresolved)
                   ["false"%string]] /\
      Permutation
        (map (sampleOf w')
             (filter (named "mastodon_exporter_num_reports") (emitted w w')))
        [valueSample "mastodon_exporter_num_reports" GaugeValue
                     [("resolved", "false")]%string
                     (float64_of_int unresolved);
         valueSample "mastodon_exporter_num_reports" GaugeValue
                     [("resolved", "true")]%string
                     (float64_of_int resolved)].
Proof.
  intros m w resolved unresolved Hm _ _ Hq. exists (scrapeWorld m w).
  split; [now apply scrape_spec|].
  pose proof (installed_inv m w Hm) as (Hn & Hr & Hg & _).
  assert (filter (named "mastodon_exporter_num_reports")
                 (emitted w (scrapeWorld m w)) =
          [constMetric (numReports m) GaugeValue (float64_of_int resolved)
                       ["true"%string];
           constMetric (numReports m) GaugeValue (float64_of_int unresolved)
                       ["false"%string]]) as ->.
  { rewrite emitted_scrapeWorld.
    unfold reportSamples, durationSamples, histogramOf. rewrite Hq.
    destruct (resolutionTimes (store w)) as [rows | e];
      [destruct (CollectRows rows scanNumber)|];
      cbn [app filter]; unfold named; cbn [metricDesc];
      rewrite Hn, ?Hr, Hg; reflexivity. }
  split; [reflexivity|].
  cbn [map sampleOf]. rewrite Hn. cbn [fqName variableLabels numReportsDesc combine].
  apply perm_swap.
Qed.

Lemma scrape_report_samples_witness :
  exists w',
    scrape exampleExporter exampleWorld = Returned tt w' /\
    filter (named "mastodon_exporter_num_reports") (emitted exampleWorld w') =
    [constMetric (numReports exampleExporter) GaugeValue (float64_of_int 3)
                 ["true"%string];
     constMetric (numReports exampleExporter) GaugeValue (float64_of_int 0)
                 ["false"%string]] /\
    Permutation
      (map (sampleOf w')
           (filter (named "mastodon_exporter_num_reports")
                   (emitted exampleWorld w')))
      [valueSample "mastodon_exporter_num_reports" GaugeValue
                   [("resolved", "false")]%string (float64_of_int 0);
       valueSample "mastodon_exporter_num_reports" GaugeValue
                   [("resolved", "true")]%string (float64_of_int 3)].
Proof.
  apply (scrape_report_samples exampleExporter exampleWorld 3 0
           example_installed).
  - vm_compute. split; discriminate.
  - vm_compute. split; discriminate.
  - reflexivity.
Defined.

(** ** State across scrapes *)

Lemma sampleOf_reportSamples m s v w :
  map (sampleOf v) (reportSamples m s) = map (sampleOf w) (reportSamples m s).
Proof.
  unfold reportSamples. destruct (reportCounts s) as [[r u] [e|]]; reflexivity.
Qed.

Lemma sampleOf_durationSamples m bounds s v w :
  map (sampleOf v) (durationSamples m bounds s) =
  map (sampleOf w) (durationSamples m bounds s).
Proof.
  unfold durationSamples. destruct (resolutionTimes s) as [rows | e];
    [destruct (CollectRows rows scanNumber)|]; reflexivity.
Qed.

(** C9, as stated: nothing mutable would outlive a scrape. The gauge
    [errors] does: made once by [newExporter], it reads 0 before the first
    scrape and 2 after a scrape in which both queries fail, and the sample
    that scrape sent is that same gauge, so that it reads 0 once a later
    scrape has succeeded. *)
Lemma scrape_overwrites_errors_gauge :
  exists w1 w2,
    scrape exampleExporter (set_store allDownStore exampleWorld)
    = Returned tt w1 /\
    gaugeValue (set_store allDownStore exampleWorld) (errors exampleExporter)
    = 0%float /\
    gaugeValue w1 (errors exampleExporter) = 2%float /\
    gauges w1 <> gauges (set_store allDownStore exampleWorld) /\
    emitted (set_store allDownStore exampleWorld) w1
    = [gaugeMetric (errors exampleExporter)] /\
    scrape exampleExporter (set_store exampleStore w1) = Returned tt w2 /\
    sampleOf w1 (gaugeMetric (errors exampleExporter)) =
    valueSample "mastodon_exporter_errors" GaugeValue [] 2%float /\
    sampleOf w2 (gaugeMetric (errors exampleExporter)) =
    valueSample "mastodon_exporter_errors" GaugeValue [] 0%float.
Proof.
  eexists _, _.
  split; [reflexivity|]. split; [reflexivity|]. split; [reflexivity|].
  split.
  - intros H.
    apply (f_equal (fun cells => match cells with
                                 | c :: _ => PrimFloat.eqb c 0%float
                                 | [] => true
                                 end)) in H.
    vm_compute in H. discriminate.
  - split; [reflexivity|]. split; [reflexivity|]. split; reflexivity.
Qed.

(** C9, amended: the tally [numErrors], the samples and the accumulator of
    a scrape are its own, and what a scrape sends and leaves depends only on
    what the store answers during it (and on the bounds), not on anything an
    earlier scrape left. But the exporter keeps, besides its immutable
    descriptors, one mutable value across scrapes: the gauge [errors] made
    at startup, which every scrape overwrites with its tally and which holds
    it afterwards; no other cell, nor the store, nor the bounds is written. *)
Theorem scrape_state_across_scrapes :
  forall m w,
    installed m w ->
    exists w',
      scrape m w = Returned tt w' /\
      installed m w' /\
      gaugeValue w' (errors m) = float64_of_int (failures (store w)) /\
      (forall a, a <> gaugeAddr (errors m) ->
                 nth a (gauges w') 0%float = nth a (gauges w) 0%float) /\
      store w' = store w /\
      resolutionTimeBuckets w' = resolutionTimeBuckets w /\
      (forall v,
          installed m v ->
          store v = store w ->
          resolutionTimeBuckets v = resolutionTimeBuckets w ->
          exists v',
            scrape m v = Returned tt v' /\
            emitted v v' = emitted w w' /\
            map (sampleOf v') (emitted v v') = map (sampleOf w') (emitted w w') /\
            gaugeValue v' (errors m) = gaugeValue w' (errors m)).
Proof.
  intros m w Hm. exists (scrapeWorld m w).
  split; [now apply scrape_spec|].
  split; [now apply installed_scrapeWorld|].
  split; [now apply gaugeValue_scrapeWorld|].
  split; [|split; [reflexivity|split; [reflexivity|]]].
  - intros a Ha. unfold scrapeWorld. cbn [gauges].
    now apply nth_update_cell_other.
  - intros v Hv Hs Hb. exists (scrapeWorld m v).
    split; [now apply scrape_spec|].
    rewrite !emitted_scrapeWorld, Hs, Hb.
    split; [reflexivity|].
    rewrite !map_app, !gaugeValue_scrapeWorld, Hs by assumption.
    rewrite (sampleOf_reportSamples m (store w) (scrapeWorld m v) (scrapeWorld m w)).
    rewrite (sampleOf_durationSamples m _ (store w) (scrapeWorld m v) (scrapeWorld m w)).
    split; [|reflexivity].
    do 2 f_equal. cbn [map sampleOf].
    now rewrite !gaugeValue_scrapeWorld, Hs by assumption.
Qed.

Lemma scrape_state_across_scrapes_witness :
  exists w',
    scrape exampleExporter (set_store allDownStore exampleWorld)
    = Returned tt w' /\
    gaugeValue w' (errors exampleExporter) =
    float64_of_int (failures allDownStore).
Proof.
  destruct (scrape_state_across_scrapes exampleExporter
              (set_store allDownStore exampleWorld)
              (example_installed_at allDownStore))
    as (w' & Hrun & _ & Hg & _).
  exists w'. split; [exact Hrun | exact Hg].
Defined.

(** * Further properties of the code *)

(** ** More about binary64 and the map *)

Module F64More.
Import F64 F64Facts.
Local Open Scope float_scope.

Lemma eq_true_rank x :
  eq x x = true <-> exists a, rank (Prim2SF x) = Some a.
Proof.
  rewrite eq_rank. split; [intros (a & H & _) | intros (a & H)]; eauto.
Qed.

Lemma isNaN_spec x : isNaN x = true <-> Prim2SF x = S754_nan.
Proof.
  unfold isNaN. rewrite negb_true_iff.
  split.
  - intros H. destruct (Prim2SF x) as [s | s | | s mx ex] eqn:E; trivial;
      exfalso; apply (eq_true_false_abs _ (proj2 (eq_true_rank x)
        ltac:(rewrite E; destruct s; cbn; eauto)) H).
  - intros H. apply not_true_is_false. rewrite eq_true_rank, H.
    intros (a & Ha). discriminate.
Qed.

Lemma le_eq_refl_l x y : le x y = true -> eq x x = true.
Proof.
  rewrite le_rank, eq_true_rank. intros (a & b & Ha & _). eauto.
Qed.

(** [==] on the right of [<=] may be replaced. *)
Lemma le_eq_compat d k j : eq k j = true -> le d k = le d j.
Proof.
  intros H. apply eq_rank in H as (a & Hk & Hj).
  apply eq_true_iff_eq. rewrite !le_rank.
  split; intros (x & y & Hx & Hy & Hxy); exists x, y;
    repeat split; congruence.
Qed.

Lemma isNaN_le_l d b : isNaN d = true -> le d b = false.
Proof.
  unfold isNaN. rewrite negb_true_iff. intros H.
  apply not_true_is_false. intros Hle.
  apply le_eq_refl_l in Hle. congruence.
Qed.

Lemma add_nan_l x y : isNaN x = true -> isNaN (x + y) = true.
Proof.
  rewrite !isNaN_spec, FloatAxioms.add_spec. now intros ->.
Qed.

Lemma add_nan_r x y : isNaN y = true -> isNaN (x + y) = true.
Proof.
  rewrite !isNaN_spec, FloatAxioms.add_spec. intros ->.
  now destruct (Prim2SF x) as [s | s | | s mx ex].
Qed.

End F64More.

Module GoMapMore.
Import GoMap.

(** A read does not tell keys that are [==] apart. *)
Lemma lookup_eq_compat m k j :
  F64.eq k j = true -> lookup m k = lookup m j.
Proof.
  intros H. induction m as [|[k' v'] m IH]; cbn [lookup]; [reflexivity|].
  destruct (F64.eq k' k) eqn:E, (F64.eq k' j) eqn:E'; trivial.
  - now rewrite (F64Facts.eq_trans _ _ _ E H) in E'.
  - rewrite F64Facts.eq_sym in H.
    now rewrite (F64Facts.eq_trans _ _ _ E' H) in E.
Qed.

Lemma lookup_set_eq m k v j :
  F64.eq k j = true -> lookup (set m k v) j = Some v.
Proof.
  intros H. induction m as [|[k' v'] m IH]; cbn [lookup set].
  - now rewrite H.
  - destruct (F64.eq k' k) eqn:E; cbn [lookup].
    + now rewrite H.
    + destruct (F64.eq k' j) eqn:E'; [|exact IH].
      rewrite F64Facts.eq_sym in H.
      now rewrite (F64Facts.eq_trans _ _ _ E' H) in E.
Qed.

Lemma get_incr_eq m k j :
  F64.eq k j = true -> get (incr m k) j = uint64_wrap (get m j + 1).
Proof.
  intros H. unfold incr, get at 1. rewrite (lookup_set_eq _ _ _ _ H).
  unfold get. now rewrite (lookup_eq_compat m k j H).
Qed.

Lemma mapKeys_set m k v x :
  In x (mapKeys (set m k v)) -> x = k \/ In x (mapKeys m).
Proof.
  unfold mapKeys. induction m as [|[k' v'] m IH]; cbn [set List.map In].
  - intros [<- | []]. now left.
  - destruct (F64.eq k' k); cbn [List.map In fst].
    + intros [<- | H]; auto.
    + intros [<- | H]; auto. destruct (IH H); auto.
Qed.

Lemma countsInRange_set m k v :
  0 <= v < 2 ^ 64 -> countsInRange m -> countsInRange (set m k v).
Proof.
  intros Hv. unfold countsInRange.
  induction m as [|[k' v'] m IH]; cbn [set]; intros H.
  - repeat constructor; cbn; lia.
  - inversion H as [|? ? Hh Ht]; subst.
    destruct (F64.eq k' k); constructor; auto.
Qed.

Lemma countsInRange_incr m k : countsInRange m -> countsInRange (incr m k).
Proof.
  apply countsInRange_set. unfold uint64_wrap. apply Z.mod_pos_bound. lia.
Qed.

Lemma countsInRange_get m j : countsInRange m -> 0 <= get m j < 2 ^ 64.
Proof.
  unfold countsInRange, get.
  induction m as [|[k' v'] m IH]; cbn [lookup]; intros H; [lia|].
  inversion H as [|? ? Hh Ht]; subst. destruct (F64.eq k' j); auto.
Qed.

End GoMapMore.

(** ** The bucketing loops on arbitrary bounds *)

Section BucketingMore.

Local Open Scope float_scope.

Lemma multiplicity_cons k rest j :
  multiplicity (k :: rest) j =
  if F64.eq k j then S (multiplicity rest j) else multiplicity rest j.
Proof. unfold multiplicity. cbn [filter]. now destruct (F64.eq k j). Qed.

Lemma uint64_wrap_idem z : uint64_wrap (uint64_wrap z) = uint64_wrap z.
Proof. unfold uint64_wrap. apply Z.mod_mod. lia. Qed.

Lemma uint64_wrap_add_l x y :
  uint64_wrap (uint64_wrap x + y) = uint64_wrap (x + y).
Proof. unfold uint64_wrap. apply Zplus_mod_idemp_l. Qed.

(** One observation against any list of bounds: the count read at [j]
    goes up, modulo [2^64], by the number of bounds [== j], if the
    observation is at most [j], and stays otherwise. *)
Lemma bucketLoop_get num bounds j :
  forall m,
    uint64_wrap (GoMap.get (bucketLoop num bounds m) j) =
    uint64_wrap (GoMap.get m j +
                 if F64.le num j then Z.of_nat (multiplicity bounds j) else 0).
Proof.
  induction bounds as [|k rest IH]; intros m.
  - unfold bucketLoop, multiplicity.
    cbn [fold_left filter List.length Z.of_nat].
    destruct (F64.le num j); now rewrite Z.add_0_r.
  - rewrite bucketLoop_cons, IH, multiplicity_cons.
    destruct (F64.eq k j) eqn:Ekj.
    + rewrite (F64More.le_eq_compat num k j Ekj).
      destruct (F64.le num j).
      * rewrite (GoMapMore.get_incr_eq _ _ _ Ekj), uint64_wrap_add_l.
        f_equal. lia.
      * reflexivity.
    + destruct (F64.le num k); [|reflexivity].
      now rewrite GoMapFacts.get_incr_other.
Qed.

Lemma bucketLoop_countsInRange num bounds :
  forall m, countsInRange m -> countsInRange (bucketLoop num bounds m).
Proof.
  induction bounds as [|k rest IH]; intros m Hm; [exact Hm|].
  rewrite bucketLoop_cons. apply IH.
  destruct (F64.le num k); auto using GoMapMore.countsInRange_incr.
Qed.

Lemma bucketLoop_keys num bounds x :
  forall m,
    In x (mapKeys (bucketLoop num bounds m)) ->
    In x bounds \/ In x (mapKeys m).
Proof.
  induction bounds as [|k rest IH]; intros m H; [now right|].
  rewrite bucketLoop_cons in H. apply IH in H as [H | H].
  - left. now right.
  - destruct (F64.le num k); [|now right].
    apply GoMapMore.mapKeys_set in H as [-> | H]; [left; now left | now right].
Qed.

Lemma numbersLoop_get bounds numbers j :
  forall sum m,
    uint64_wrap (GoMap.get (snd (numbersLoop bounds numbers (sum, m))) j) =
    uint64_wrap (GoMap.get m j +
                 Z.of_nat (multiplicity bounds j * count_le numbers j)).
Proof.
  induction numbers as [|num rest IH]; intros sum m.
  - unfold numbersLoop, count_le. cbn [fold_left snd filter List.length].
    now rewrite Nat.mul_0_r, Z.add_0_r.
  - rewrite numbersLoop_cons, IH, count_le_cons.
    rewrite <- uint64_wrap_add_l, bucketLoop_get, uint64_wrap_add_l.
    f_equal. destruct (F64.le num j); lia.
Qed.

Lemma numbersLoop_countsInRange bounds numbers :
  forall sum m,
    countsInRange m ->
    countsInRange (snd (numbersLoop bounds numbers (sum, m))).
Proof.
  induction numbers as [|num rest IH]; intros sum m Hm; [exact Hm|].
  rewrite numbersLoop_cons. apply IH.
  now apply bucketLoop_countsInRange.
Qed.

Lemma numbersLoop_keys bounds numbers x :
  forall sum m,
    In x (mapKeys (snd (numbersLoop bounds numbers (sum, m)))) ->
    In x bounds \/ In x (mapKeys m).
Proof.
  induction numbers as [|num rest IH]; intros sum m H; [now right|].
  rewrite numbersLoop_cons in H. apply IH in H as [H | H]; [now left|].
  now apply bucketLoop_keys in H.
Qed.

Lemma bucketCount_histogramOf_any m bounds numbers j :
  bucketCount (histogramOf m bounds numbers) j =
  uint64_wrap (Z.of_nat (multiplicity bounds j * count_le numbers j)).
Proof.
  unfold bucketCount, histogramOf, histBuckets.
  pose proof (numbersLoop_get bounds numbers j 0 GoMap.make) as H.
  unfold GoMap.get at 2 in H. cbn [GoMap.lookup GoMap.make] in H.
  rewrite Z.add_0_l in H. rewrite <- H.
  symmetry. apply Z.mod_small.
  apply GoMapMore.countsInRange_get, numbersLoop_countsInRange. constructor.
Qed.

Lemma count_le_Permutation xs ys b :
  Permutation xs ys -> count_le xs b = count_le ys b.
Proof.
  intros H. induction H as [| x xs ys H IH | x y xs | xs ys zs H1 IH1 H2 IH2].
  - reflexivity.
  - rewrite !count_le_cons, IH. reflexivity.
  - rewrite !count_le_cons. now destruct (F64.le x b), (F64.le y b).
  - congruence.
Qed.

Lemma sum_from_nan acc numbers :
  isNaN acc = true -> isNaN (sum_from acc numbers) = true.
Proof.
  revert acc. induction numbers as [|d rest IH]; intros acc H; [exact H|].
  cbn [sum_from]. now apply IH, F64More.add_nan_l.
Qed.

Lemma sum_from_has_nan acc numbers :
  existsb isNaN numbers = true -> isNaN (sum_from acc numbers) = true.
Proof.
  revert acc. induction numbers as [|d rest IH]; intros acc H; [discriminate|].
  cbn [existsb] in H. cbn [sum_from].
  apply orb_true_iff in H as [H | H]; [|now apply IH].
  now apply sum_from_nan, F64More.add_nan_r.
Qed.

End BucketingMore.

(** ** The bucketing engine, beyond its precondition *)

(** X1: whatever the bounds (sorted or not, repeated or not), the count
    the histogram gives at [b] is, modulo [2^64], the number of observations
    [d <= b] times the number of bounds that are [== b]: a bound listed
    twice counts every observation twice, a value that is no bound reads
    zero. *)
Theorem resolvedMetricFromNums_any_bounds :
  forall m w numbers b,
    installed m w ->
    exists h,
      resolvedMetricFromNums m numbers w = Returned h w /\
      bucketCount h b =
      uint64_wrap (Z.of_nat (multiplicity (resolutionTimeBuckets w) b
                             * count_le numbers b)).
Proof.
  intros m w numbers b Hm.
  exists (histogramOf m (resolutionTimeBuckets w) numbers).
  split; [now apply resolvedMetricFromNums_returns|].
  apply bucketCount_histogramOf_any.
Qed.

Lemma resolvedMetricFromNums_any_bounds_witness :
  let w := set_buckets [60; 60; 600]%float exampleWorld in
  exists h,
    resolvedMetricFromNums exampleExporter [45; 500]%float w = Returned h w /\
    bucketCount h 60%float =
    uint64_wrap (Z.of_nat (multiplicity (resolutionTimeBuckets w) 60%float
                           * count_le [45; 500]%float 60%float)).
Proof.
  apply (resolvedMetricFromNums_any_bounds exampleExporter
           (set_buckets [60; 60; 600]%float exampleWorld)
           [45; 500]%float 60%float
           (installed_set_buckets _ _ _ example_installed)).
Defined.

(** X2: the map of the histogram holds keys among the bounds only; for
    strictly increasing positive bounds it holds an entry for a bound
    exactly when some observation is at most that bound, so that with an
    entry for one bound it holds one for every larger bound. *)
Theorem resolvedMetricFromNums_entries :
  forall m w numbers,
    installed m w ->
    strictly_increasing (resolutionTimeBuckets w) = true ->
    all_positive (resolutionTimeBuckets w) = true ->
    exists h,
      resolvedMetricFromNums m numbers w = Returned h w /\
      (forall k, In k (mapKeys (histBuckets h)) ->
                 In k (resolutionTimeBuckets w)) /\
      (forall b, In b (resolutionTimeBuckets w) ->
                 (GoMap.lookup (histBuckets h) b = None <->
                  count_le numbers b = O)) /\
      (forall b1 b2,
          In b1 (resolutionTimeBuckets w) ->
          In b2 (resolutionTimeBuckets w) ->
          F64.lt b1 b2 = true ->
          GoMap.lookup (histBuckets h) b1 <> None ->
          GoMap.lookup (histBuckets h) b2 <> None).
Proof.
  intros m w numbers Hm Hs Hp.
  exists (histogramOf m (resolutionTimeBuckets w) numbers).
  split; [now apply resolvedMetricFromNums_returns|].
  assert (forall b, In b (resolutionTimeBuckets w) ->
            (GoMap.lookup (histBuckets (histogramOf m (resolutionTimeBuckets w)
                                                    numbers)) b = None <->
             count_le numbers b = O)) as Hentry.
  { intros b Hb. rewrite lookup_histogramOf by assumption.
    destruct (count_le numbers b); split; congruence. }
  split; [|split; [exact Hentry|]].
  - intros k Hk. unfold histogramOf, histBuckets in Hk.
    apply numbersLoop_keys in Hk as [Hk | []]. exact Hk.
  - intros b1 b2 H1 H2 Hlt Hne Habs.
    apply Hne, Hentry; trivial.
    apply Hentry in Habs; trivial.
    pose proof (count_le_mono numbers b1 b2 Hlt). lia.
Qed.

Lemma resolvedMetricFromNums_entries_witness :
  exists h,
    resolvedMetricFromNums exampleExporter [3700%float] exampleWorld
    = Returned h exampleWorld /\
    GoMap.lookup (histBuckets h) 3600%float = None /\
    GoMap.lookup (histBuckets h) 14400%float = Some 1.
Proof.
  destruct (resolvedMetricFromNums_entries exampleExporter exampleWorld
              [3700%float] example_installed eq_refl eq_refl)
    as (h & Hrun & _ & Hentry & _).
  exists h. split; [exact Hrun|].
  split.
  - apply Hentry; [cbn; tauto | reflexivity].
  - vm_compute in Hrun. injection Hrun as <-. reflexivity.
Defined.

(** X3: the counts and the total do not depend on the order in which the
    store returns the rows (the query has no ORDER BY): observations that
    are a permutation of one another give the same count at every value and
    the same total, for any bounds. *)
Theorem resolvedMetricFromNums_permutation :
  forall m w numbers numbers',
    installed m w ->
    Permutation numbers numbers' ->
    exists h h',
      resolvedMetricFromNums m numbers w = Returned h w /\
      resolvedMetricFromNums m numbers' w = Returned h' w /\
      histCount h = histCount h' /\
      forall b, bucketCount h b = bucketCount h' b.
Proof.
  intros m w numbers numbers' Hm Hperm.
  exists (histogramOf m (resolutionTimeBuckets w) numbers),
         (histogramOf m (resolutionTimeBuckets w) numbers').
  split; [now apply resolvedMetricFromNums_returns|].
  split; [now apply resolvedMetricFromNums_returns|].
  split.
  - unfold histogramOf, histCount.
    now rewrite (Permutation_length Hperm).
  - intros b. rewrite !bucketCount_histogramOf_any.
    now rewrite (count_le_Permutation _ _ b Hperm).
Qed.

Lemma resolvedMetricFromNums_permutation_witness :
  exists h h',
    resolvedMetricFromNums exampleExporter [45; 500; 3700]%float exampleWorld
    = Returned h exampleWorld /\
    resolvedMetricFromNums exampleExporter [500; 45; 3700]%float exampleWorld
    = Returned h' exampleWorld /\
    histCount h = histCount h' /\
    forall b, bucketCount h b = bucketCount h' b.
Proof.
  apply (resolvedMetricFromNums_permutation exampleExporter exampleWorld
           [45; 500; 3700]%float [500; 45; 3700]%float example_installed).
  apply perm_swap.
Defined.

(** The sum, in contrast, is a binary64 sum taken in the order of the rows. *)
Example sum_of_depends_on_order :
  sum_of [1e16; 1; 1]%float = 1e16%float /\
  sum_of [1; 1; 1e16]%float = 10000000000000002%float /\
  F64.eq (sum_of [1e16; 1; 1]%float) (sum_of [1; 1; 1e16]%float) = false.
Proof. vm_compute. repeat split; reflexivity. Qed.

(** X4: one more observation [d], wherever it stands, raises the total by
    one and raises the count of a bound [b] by one exactly when [d <= b]; a
    NaN therefore raises the total and no count at all. *)
Theorem resolvedMetricFromNums_observation :
  forall m w before d after,
    installed m w ->
    strictly_increasing (resolutionTimeBuckets w) = true ->
    all_positive (resolutionTimeBuckets w) = true ->
    Z.of_nat (List.length (before ++ d :: after)) <= max_int ->
    exists h0 h,
      resolvedMetricFromNums m (before ++ after) w = Returned h0 w /\
      resolvedMetricFromNums m (before ++ d :: after) w = Returned h w /\
      histCount h = histCount h0 + 1 /\
      (forall b, In b (resolutionTimeBuckets w) ->
                 bucketCount h b = bucketCount h0 b + Z.b2z (F64.le d b)) /\
      (isNaN d = true ->
       forall b, In b (resolutionTimeBuckets w) ->
                 bucketCount h b = bucketCount h0 b).
Proof.
  intros m w before d after Hm Hs Hp Hlen.
  exists (histogramOf m (resolutionTimeBuckets w) (before ++ after)),
         (histogramOf m (resolutionTimeBuckets w) (before ++ d :: after)).
  rewrite length_app in Hlen. cbn [List.length] in Hlen.
  assert (Z.of_nat (List.length (before ++ after)) <= max_int) as Hlen0
      by (rewrite length_app; lia).
  assert (Z.of_nat (List.length (before ++ d :: after)) <= max_int) as Hlen1
      by (rewrite length_app; cbn [List.length]; lia).
  assert (forall b, In b (resolutionTimeBuckets w) ->
            bucketCount (histogramOf m (resolutionTimeBuckets w)
                                     (before ++ d :: after)) b =
            bucketCount (histogramOf m (resolutionTimeBuckets w)
                                     (before ++ after)) b
            + Z.b2z (F64.le d b)) as Hstep.
  { intros b Hb. rewrite !bucketCount_histogramOf by assumption.
    rewrite !count_le_app, count_le_cons.
    destruct (F64.le d b); cbn [Z.b2z]; lia. }
  split; [now apply resolvedMetricFromNums_returns|].
  split; [now apply resolvedMetricFromNums_returns|].
  split; [|split; [exact Hstep|]].
  - rewrite !histCount_histogramOf by assumption.
    rewrite !length_app. cbn [List.length]. lia.
  - intros Hnan b Hb. rewrite (Hstep b Hb), (F64More.isNaN_le_l d b Hnan).
    cbn [Z.b2z]. lia.
Qed.

Lemma resolvedMetricFromNums_observation_witness :
  exists h0 h,
    resolvedMetricFromNums exampleExporter ([45] ++ [3700])%float exampleWorld
    = Returned h0 exampleWorld /\
    resolvedMetricFromNums exampleExporter ([45] ++ nan :: [3700])%float
      exampleWorld = Returned h exampleWorld /\
    histCount h = histCount h0 + 1 /\
    (forall b, In b (resolutionTimeBuckets exampleWorld) ->
               bucketCount h b = bucketCount h0 b + Z.b2z (F64.le nan b)) /\
    (isNaN nan = true ->
     forall b, In b (resolutionTimeBuckets exampleWorld) ->
               bucketCount h b = bucketCount h0 b).
Proof.
  apply (resolvedMetricFromNums_observation exampleExporter exampleWorld
           [45%float] nan [3700%float] example_installed).
  - reflexivity.
  - reflexivity.
  - vm_compute. discriminate.
Defined.

(** X5: as soon as one observation is NaN, the sum of the histogram is
    NaN, whatever the other observations and the bounds. *)
Theorem resolvedMetricFromNums_nan_sum :
  forall m w numbers,
    installed m w ->
    existsb isNaN numbers = true ->
    exists h,
      resolvedMetricFromNums m numbers w = Returned h w /\
      isNaN (histSum h) = true.
Proof.
  intros m w numbers Hm Hnan.
  exists (histogramOf m (resolutionTimeBuckets w) numbers).
  split; [now apply resolvedMetricFromNums_returns|].
  rewrite histSum_histogramOf. now apply sum_from_has_nan.
Qed.

Lemma resolvedMetricFromNums_nan_sum_witness :
  exists h,
    resolvedMetricFromNums exampleExporter [45; nan; 3700]%float exampleWorld
    = Returned h exampleWorld /\
    isNaN (histSum h) = true.
Proof.
  apply (resolvedMetricFromNums_nan_sum exampleExporter exampleWorld
           [45; nan; 3700]%float example_installed).
  reflexivity.
Defined.

(** ** More about the query layer and the orchestrator *)

(** X6: when every row scans but the cursor ends with an error of its own,
    [getResolvedStats] returns that error, wrapped as a failure of the scan,
    and the scrape treats the family as failed: it sends no histogram and
    the gauge [errors] counts the failure. *)
Theorem getResolvedStats_cursor_error :
  forall m w rows numbers err,
    installed m w ->
    resolutionTimes (store w) = inl rows ->
    rowScans rows = map inl numbers ->
    rowsErr rows = Some err ->
    (exists w1,
        getResolvedStats m w =
        Returned (inr (wrapError "scanning rows: " err)) w1) /\
    (exists w',
        scrape m w = Returned tt w' /\
        (forall x, In x (emitted w w') -> isHistogram x = false) /\
        In ("Error querying report metrics"%string,
            wrapError "scanning rows: " err) (errorsLogged w w') /\
        gaugeValue w' (errors m) =
        float64_of_int (Z.b2z (reportsFail (store w)) + 1)).
Proof.
  intros m w rows numbers err Hm Hq Hs He.
  assert (CollectRows rows scanNumber = inr err) as Hc
      by (rewrite (CollectRows_all_scan _ _ Hs), He; reflexivity).
  split.
  - rewrite (getResolvedStats_spec m w Hm), Hq, Hc. eauto.
  - exists (scrapeWorld m w). split; [now apply scrape_spec|].
    assert (durationsFail (store w) = true) as Hd
        by (unfold durationsFail; now rewrite Hq, Hc).
    split; [|split].
    + intros x. rewrite emitted_scrapeWorld, (durationSamples_fail _ _ _ Hd).
      cbn [app]. intros Hx. apply in_app_or in Hx as [Hx | [<- | []]];
        [|reflexivity].
      unfold reportSamples in Hx.
      destruct (reportCounts (store w)) as [[r u] [e|]]; [destruct Hx|].
      destruct Hx as [<- | [<- | []]]; reflexivity.
    + unfold errorsLogged, scrapeWorld. cbn [trace].
      rewrite skipn_length_app. unfold errorsOf.
      rewrite flat_map_app. apply in_or_app. right.
      unfold durationTrace, durationError. rewrite Hq, Hc.
      cbn. now left.
    + rewrite gaugeValue_scrapeWorld by assumption.
      unfold failures. now rewrite Hd.
Qed.

Lemma getResolvedStats_cursor_error_witness :
  exists w1,
    getResolvedStats exampleExporter (set_store cursorErrorStore exampleWorld) =
    Returned (inr (wrapError "scanning rows: " (errorString "unexpected EOF")))
             w1.
Proof.
  apply (proj1 (getResolvedStats_cursor_error exampleExporter
                  (set_store cursorErrorStore exampleWorld)
                  {| rowScans := [inl 45%float; inl 500%float];
                     rowsErr := Some (errorString "unexpected EOF") |}
                  [45; 500]%float (errorString "unexpected EOF")
                  (example_installed_at cursorErrorStore)
                  eq_refl eq_refl eq_refl)).
Defined.

(** X7: every metric a scrape sends bears a descriptor that [Describe]
    announces, and the three descriptors [Describe] announces have three
    different names. *)
Theorem scrape_sends_described :
  forall m w,
    installed m w ->
    exists w',
      scrape m w = Returned tt w' /\
      (forall x, In x (emitted w w') -> In (metricDesc x) (Describe m)) /\
      NoDup (map fqName (Describe m)).
Proof.
  intros m w Hm. exists (scrapeWorld m w).
  split; [now apply scrape_spec|].
  pose proof (installed_inv m w Hm) as (Hn & Hr & Hg & _).
  split.
  - intros x. rewrite emitted_scrapeWorld. unfold Describe.
    intros Hx. apply in_app_or in Hx as [Hx | Hx];
      [|apply in_app_or in Hx as [Hx | [<- | []]]].
    + unfold reportSamples in Hx.
      destruct (reportCounts (store w)) as [[r u] [e|]]; [destruct Hx|].
      destruct Hx as [<- | [<- | []]]; now left.
    + unfold durationSamples in Hx.
      destruct (resolutionTimes (store w)) as [rows | e]; [|destruct Hx].
      destruct (CollectRows rows scanNumber); [|destruct Hx].
      destruct Hx as [<- | []]. right. now left.
    + right. right. now left.
  - unfold Describe. cbn [map]. rewrite Hn, Hr, Hg.
    repeat constructor; cbn; intuition discriminate.
Qed.

Lemma scrape_sends_described_witness :
  exists w',
    scrape exampleExporter exampleWorld = Returned tt w' /\
    (forall x, In x (emitted exampleWorld w') ->
               In (metricDesc x) (Describe exampleExporter)) /\
    NoDup (map fqName (Describe exampleExporter)).
Proof.
  apply (scrape_sends_described exampleExporter exampleWorld
           example_installed).
Defined.

(** X8: a scrape logs one error line per failed family query and none
    otherwise: the line of the report family carries the error of the store
    as it is, the line of the duration family the wrapped error of
    [getResolvedStats]; and the gauge [errors] reads the number of lines
    logged. *)
Theorem scrape_logs_each_failure :
  forall m w,
    installed m w ->
    exists w',
      scrape m w = Returned tt w' /\
      errorsLogged w w' =
      match reportCounts (store w) with
      | (_, _, Some err) =>
          [("Error querying number of reports"%string, err)]
      | (_, _, None) => []
      end ++
      match resolutionTimes (store w) with
      | inr err =>
          [("Error querying report metrics"%string,
            wrapError "querying database: " err)]
      | inl rows =>
          match CollectRows rows scanNumber with
          | inr err =>
              [("Error querying report metrics"%string,
                wrapError "scanning rows: " err)]
          | inl _ => []
          end
      end /\
      gaugeValue w' (errors m) =
      float64_of_int (Z.of_nat (List.length (errorsLogged w w'))).
Proof.
  intros m w Hm. exists (scrapeWorld m w).
  split; [now apply scrape_spec|].
  rewrite gaugeValue_scrapeWorld by assumption.
  unfold errorsLogged, scrapeWorld. cbn [trace]. rewrite skipn_length_app.
  unfold failures, reportsFail, durationsFail, reportTrace, durationTrace,
    durationError.
  destruct (reportCounts (store w)) as [[r u] [e|]];
    (destruct (resolutionTimes (store w)) as [rows | e'];
     [destruct (CollectRows rows scanNumber)|]); split; reflexivity.
Qed.

Lemma scrape_logs_each_failure_witness :
  exists w',
    scrape exampleExporter (set_store allDownStore exampleWorld)
    = Returned tt w' /\
    List.length (errorsLogged (set_store allDownStore exampleWorld) w') = 2%nat.
Proof.
  destruct (scrape_logs_each_failure exampleExporter
              (set_store allDownStore exampleWorld)
              (example_installed_at allDownStore))
    as (w' & Hrun & Hlog & _).
  exists w'. split; [exact Hrun|]. now rewrite Hlog.
Defined.

(** ** The revision with the account and post families *)

Section FullScrape.

Lemma full_run_bind {A B} (c : Full.Go A) (k : A -> Full.Go B) w a w' :
  c w = Full.Returned a w' -> Full.bind c k w = k a w'.
Proof. intros H. unfold Full.bind. now rewrite H. Qed.

Lemma full_run_lift {A} (c : Go A) w a c' :
  c (Full.toCore w) = Returned a c' ->
  Full.lift c w = Full.Returned a (Full.fromCore w c').
Proof. intros H. unfold Full.lift. now rewrite H. Qed.

Lemma full_installed_inv m w :
  Full.installed m w ->
  Full.numAccounts m = Full.numAccounts Full.exampleExporter /\
  Full.numPosts m = Full.numPosts Full.exampleExporter /\
  Full.numReports m = numReportsDesc /\
  Full.resolvedTimeSeconds m = resolvedTimeSecondsDesc /\
  gaugeDesc (Full.errors m) = errorsDesc /\
  (gaugeAddr (Full.errors m) < List.length (Full.gauges w))%nat.
Proof.
  intros (pool & w0 & w1 & Hnew & Hlen).
  unfold Full.newExporter, Full.bind, Full.lift, NewGauge, Full.ret in Hnew.
  injection Hnew as <- <-. cbn in *.
  rewrite length_app in Hlen. cbn in Hlen.
  repeat split; lia.
Qed.

(** The receiver of the shared methods is an exporter in use in every
    core world that has the cell of the gauge. *)
Lemma full_installed_core m w :
  Full.installed m w ->
  forall c, List.length (gauges c) = List.length (Full.gauges w) ->
            installed (Full.core m) c.
Proof.
  intros (pool & w0 & w1 & Hnew & Hlen) c Hc.
  unfold Full.newExporter, Full.bind, Full.lift, NewGauge, Full.ret in Hnew.
  injection Hnew as <- <-. cbn in Hlen.
  exists pool, (Full.toCore w0). eexists. split; [reflexivity|].
  cbn. rewrite Hc. exact Hlen.
Qed.

Lemma full_example_installed :
  Full.installed Full.exampleExporter Full.exampleWorld.
Proof.
  exists pgxpool, (Full.World_init Full.exampleStore), Full.exampleWorld.
  split; [reflexivity | apply le_n].
Defined.

Lemma full_example_installed_at s :
  Full.installed Full.exampleExporter (Full.set_store s Full.exampleWorld).
Proof.
  exists pgxpool, (Full.World_init Full.exampleStore), Full.exampleWorld.
  split; [reflexivity | apply le_n].
Defined.

End FullScrape.

Section FullRun.

Ltac full_proj :=
  cbv beta iota zeta delta
    [Full.store Full.resolutionTimeBuckets Full.gauges Full.chan Full.trace
     Full.reportStore Full.accountCounts Full.postCount
     Full.db Full.numAccounts Full.numPosts Full.numReports
     Full.resolvedTimeSeconds Full.errors Full.core
     store resolutionTimeBuckets gauges chan trace
     reportCounts resolutionTimes
     db numReports resolvedTimeSeconds errors].

Lemma full_bind_run {A B} (c : Full.Go A) (k : A -> Full.Go B) w a w1 r :
  c w = Full.Returned a w1 -> k a w1 = r -> Full.bind c k w = r.
Proof. intros H <-. unfold Full.bind. now rewrite H. Qed.

Lemma full_deferring_run {A} (d : Full.Go unit) (body : Full.Go A) w a w1 w2 :
  body w = Full.Returned a w1 ->
  d w1 = Full.Returned tt w2 ->
  Full.deferring d body w = Full.Returned a w2.
Proof. intros H1 H2. unfold Full.deferring. now rewrite H1, H2. Qed.

Lemma full_logDebug_run msg s bs gs ch tr :
  Full.logDebug msg (Full.Build_World s bs gs ch tr) =
  Full.Returned tt (Full.Build_World s bs gs ch (tr ++ [Full.LoggedDebug msg])).
Proof. reflexivity. Qed.

Lemma full_logError_run msg err rs ac pc bs gs ch tr :
  Full.lift (logError msg err)
    (Full.Build_World (Full.Build_Store rs ac pc) bs gs ch tr) =
  Full.Returned tt
    (Full.Build_World (Full.Build_Store rs ac pc) bs gs ch
       (tr ++ [Full.Shared (LoggedError msg err)])).
Proof. reflexivity. Qed.

Lemma full_send_run x rs ac pc bs gs ch tr :
  Full.lift (send x)
    (Full.Build_World (Full.Build_Store rs ac pc) bs gs ch tr) =
  Full.Returned tt
    (Full.Build_World (Full.Build_Store rs ac pc) bs gs (ch ++ [x]) tr).
Proof.
  unfold Full.lift, send, Full.fromCore, Full.toCore. cbn.
  now rewrite app_nil_r.
Qed.

Lemma full_metric_run desc vt v lvs rs ac pc bs gs ch tr :
  Nat.eqb (List.length lvs) (List.length (variableLabels desc)) = true ->
  Full.lift (MustNewConstMetric desc vt v lvs)
    (Full.Build_World (Full.Build_Store rs ac pc) bs gs ch tr) =
  Full.Returned (constMetric desc vt v lvs)
    (Full.Build_World (Full.Build_Store rs ac pc) bs gs ch tr).
Proof.
  intros H.
  unfold Full.lift, MustNewConstMetric, NewConstMetric, validateLabelValues.
  rewrite H. unfold ret, Full.fromCore, Full.toCore. cbn.
  now rewrite app_nil_r.
Qed.

Lemma full_GaugeSet_run g v rs ac pc bs gs ch tr :
  Full.lift (GaugeSet g v)
    (Full.Build_World (Full.Build_Store rs ac pc) bs gs ch tr) =
  Full.Returned tt
    (Full.Build_World (Full.Build_Store rs ac pc) bs
       (update_cell gs (gaugeAddr g) v) ch tr).
Proof.
  unfold Full.lift, GaugeSet, Full.fromCore, Full.toCore. cbn.
  now rewrite app_nil_r.
Qed.

Lemma full_getNumReports_run m rs ac pc bs gs ch tr :
  Full.getNumReports m
    (Full.Build_World (Full.Build_Store rs ac pc) bs gs ch tr) =
  Full.Returned (reportCounts rs)
    (Full.Build_World (Full.Build_Store rs ac pc) bs gs ch
       (tr ++ [Full.Shared (Queried SelectReportCounts)])).
Proof. reflexivity. Qed.

Lemma full_getNumPosts_run m rs ac pc bs gs ch tr :
  Full.getNumPosts m
    (Full.Build_World (Full.Build_Store rs ac pc) bs gs ch tr) =
  Full.Returned pc
    (Full.Build_World (Full.Build_Store rs ac pc) bs gs ch
       (tr ++ [Full.Queried Full.SelectPostCount])).
Proof. reflexivity. Qed.

Lemma full_sendAll_run xs rs ac pc bs gs tr :
  forall ch,
    Full.sendAll xs
      (Full.Build_World (Full.Build_Store rs ac pc) bs gs ch tr) =
    Full.Returned tt
      (Full.Build_World (Full.Build_Store rs ac pc) bs gs (ch ++ xs) tr).
Proof.
  induction xs as [|x xs IH]; intros ch; cbn [Full.sendAll].
  - unfold Full.ret. now rewrite app_nil_r.
  - eapply full_bind_run; [apply full_send_run|].
    rewrite IH, <- app_assoc. reflexivity.
Qed.

Lemma full_accountsLoop_run m lvs rs ac pc bs gs ch tr :
  variableLabels (Full.numAccounts m) = ["type"%string] ->
  forall acc,
    Full.accountsLoop m lvs acc
      (Full.Build_World (Full.Build_Store rs ac pc) bs gs ch tr) =
    Full.Returned
      (acc ++ map (fun lv => constMetric (Full.numAccounts m) GaugeValue
                               (float64_of_int (Full.Val lv)) [Full.Name lv])
                  lvs)
      (Full.Build_World (Full.Build_Store rs ac pc) bs gs ch tr).
Proof.
  intros Hl. induction lvs as [|lv lvs IH]; intros acc;
    cbn [Full.accountsLoop map].
  - unfold Full.ret. now rewrite app_nil_r.
  - eapply full_bind_run;
      [apply full_metric_run; now rewrite Hl|].
    rewrite IH, <- app_assoc. reflexivity.
Qed.

Lemma full_getNumAccounts_run m rs v1 v2 v3 v4 v5 oa pc bs gs ch tr :
  variableLabels (Full.numAccounts m) = ["type"%string] ->
  Full.getNumAccounts m
    (Full.Build_World (Full.Build_Store rs (v1, v2, v3, v4, v5, oa) pc)
                      bs gs ch tr) =
  Full.Returned
    match oa with
    | Some err => inr err
    | None => inl (Full.accountGauges m v1 v2 v3 v4 v5)
    end
    (Full.Build_World (Full.Build_Store rs (v1, v2, v3, v4, v5, oa) pc)
                      bs gs ch
                      (tr ++ [Full.Queried Full.SelectAccountCounts])).
Proof.
  intros Hl. unfold Full.getNumAccounts.
  eapply full_bind_run; [reflexivity|]. cbv beta iota zeta.
  destruct oa as [err|]; [reflexivity|].
  eapply full_bind_run; [now apply full_accountsLoop_run|]. reflexivity.
Qed.

Lemma full_getResolvedStats_run m rs ac pc bs gs ch tr :
  Full.installed m (Full.Build_World (Full.Build_Store rs ac pc) bs gs ch tr) ->
  Full.getResolvedStats m
    (Full.Build_World (Full.Build_Store rs ac pc) bs gs ch tr) =
  Full.Returned
    match resolutionTimes rs with
    | inr err => inr (wrapError "querying database: " err)
    | inl rows =>
        match CollectRows rows scanNumber with
        | inr err => inr (wrapError "scanning rows: " err)
        | inl numbers => inl (histogramOf (Full.core m) bs numbers)
        end
    end
    (Full.Build_World (Full.Build_Store rs ac pc) bs gs ch
       (tr ++ [Full.Shared (Queried SelectResolutionTimes)])).
Proof.
  intros Hm. unfold Full.getResolvedStats.
  erewrite full_run_lift
    by (apply getResolvedStats_spec, (full_installed_core _ _ Hm);
        reflexivity).
  reflexivity.
Qed.

Lemma full_installed_same_gauges m s bs gs ch tr s' bs' ch' tr' :
  Full.installed m (Full.Build_World s bs gs ch tr) ->
  Full.installed m (Full.Build_World s' bs' gs ch' tr').
Proof. intros (pool & w0 & w1 & H & Hl). exists pool, w0, w1. auto. Qed.

(** Runs a straight-line computation on a world given as a record. *)
Ltac full_run Hm Hl :=
  full_proj;
  try match goal with
      | H : CollectRows _ _ = _ |- _ => rewrite H; cbv beta iota
      end;
  lazymatch goal with
  | |- Full.bind _ _ _ = _ =>
      eapply full_bind_run; [full_run Hm Hl | full_run Hm Hl]
  | |- Full.logDebug _ _ = _ => apply full_logDebug_run
  | |- Full.lift (logError _ _) _ = _ => apply full_logError_run
  | |- Full.lift (send _) _ = _ => apply full_send_run
  | |- Full.lift (MustNewConstMetric _ _ _ _) _ = _ =>
      apply full_metric_run; reflexivity
  | |- Full.lift (GaugeSet _ _) _ = _ => apply full_GaugeSet_run
  | |- Full.getNumReports _ _ = _ => apply full_getNumReports_run
  | |- Full.getNumPosts _ _ = _ => apply full_getNumPosts_run
  | |- Full.getNumAccounts _ _ = _ => apply full_getNumAccounts_run, Hl
  | |- Full.getResolvedStats _ _ = _ =>
      apply full_getResolvedStats_run, (full_installed_same_gauges _ _ _ _ _ _ _ _ _ _ Hm)
  | |- Full.sendAll _ _ = _ => apply full_sendAll_run
  | |- Full.ret _ _ = _ => reflexivity
  end.

Lemma full_scrape_spec m w :
  Full.installed m w ->
  Full.scrape m w = Full.Returned tt (Full.scrapeWorld m w).
Proof.
  intros Hm.
  pose proof (full_installed_inv m w Hm) as (HA & HP & HR & HT & HG & _).
  assert (variableLabels (Full.numAccounts m) = ["type"%string]) as Hl
      by now rewrite HA.
  destruct m as [pool dA dP dR dT g].
  cbn [Full.numAccounts Full.numPosts Full.numReports
       Full.resolvedTimeSeconds Full.exampleExporter] in HA, HP, HR, HT.
  subst dA dP dR dT.
  destruct w as [[rs ac pc] bs gs ch tr].
  destruct rs as [[[r u] oe] rt].
  destruct ac as [[[[[v1 v2] v3] v4] v5] oa].
  destruct pc as [c op].
  unfold Full.scrapeWorld, Full.failures, reportSamples, durationSamples,
    Full.accountSamples, Full.postSamples, reportTrace, durationTrace,
    durationError, Full.accountTrace, Full.postTrace, reportsFail,
    durationsFail, Full.accountsFail, Full.postsFail.
  full_proj.
  unfold Full.scrape.
  destruct oe as [e1|], oa as [e3|], op as [e4|];
    (destruct rt as [rows | e2];
     [destruct (CollectRows rows scanNumber) as [numbers | e2] eqn:Ecr|]);
    (eapply eq_trans;
     [eapply full_deferring_run; full_run Hm Hl
     |cbn [app map]; rewrite <- ?app_assoc; cbn [app]; reflexivity]).
Qed.
End FullRun.

Section FullFacts.

Lemma full_emitted_scrapeWorld m w :
  Full.emitted w (Full.scrapeWorld m w) =
  reportSamples (Full.core m) (Full.reportStore (Full.store w))
    ++ durationSamples (Full.core m) (Full.resolutionTimeBuckets w)
         (Full.reportStore (Full.store w))
    ++ Full.accountSamples m (Full.store w)
    ++ Full.postSamples m (Full.store w)
    ++ [gaugeMetric (Full.errors m)].
Proof.
  unfold Full.emitted, Full.scrapeWorld. cbn [Full.chan].
  apply skipn_length_app.
Qed.

Lemma full_logged_scrapeWorld m w :
  Full.logged w (Full.scrapeWorld m w) =
  [Full.LoggedDebug "Fetching number of reports"]
    ++ map Full.Shared (reportTrace (Full.reportStore (Full.store w)))
    ++ [Full.LoggedDebug "Fetching report metrics"]
    ++ map Full.Shared (durationTrace (Full.reportStore (Full.store w)))
    ++ Full.accountTrace (Full.store w)
    ++ Full.postTrace (Full.store w)
    ++ [Full.LoggedDebug "scrape finished"].
Proof.
  unfold Full.logged, Full.scrapeWorld. cbn [Full.trace].
  apply skipn_length_app.
Qed.

Lemma full_gaugeValue_scrapeWorld m w :
  Full.installed m w ->
  Full.gaugeValue (Full.scrapeWorld m w) (Full.errors m) =
  float64_of_int (Full.failures (Full.store w)).
Proof.
  intros Hm. apply full_installed_inv in Hm as (_ & _ & _ & _ & _ & Ha).
  unfold Full.gaugeValue, Full.scrapeWorld. cbn [Full.gauges].
  now apply nth_update_cell.
Qed.

Lemma full_failures_range s : 0 <= Full.failures s <= 4.
Proof.
  unfold Full.failures.
  destruct (reportsFail _), (durationsFail _), (Full.accountsFail s),
    (Full.postsFail s); cbn; lia.
Qed.

(** The names under which the families are exposed. *)
Lemma full_names m w :
  Full.installed m w ->
  (forall x s, In x (reportSamples (Full.core m) s) ->
               fqName (metricDesc x) = "mastodon_exporter_num_reports"%string) /\
  (forall x bs s, In x (durationSamples (Full.core m) bs s) ->
                  fqName (metricDesc x) =
                  "mastodon_exporter_resolved_time_seconds"%string) /\
  (forall x s, In x (Full.accountSamples m s) ->
               fqName (metricDesc x) = "mastodon_exporter_num_accounts"%string) /\
  (forall x s, In x (Full.postSamples m s) ->
               fqName (metricDesc x) = "mastodon_exporter_num_posts"%string) /\
  fqName (metricDesc (gaugeMetric (Full.errors m))) =
  "mastodon_exporter_errors"%string.
Proof.
  intros Hm. apply full_installed_inv in Hm as (HA & HP & HR & HT & HG & _).
  repeat split.
  - intros x s. unfold reportSamples.
    destruct (reportCounts s) as [[r u] [e|]]; [intros []|].
    intros [<- | [<- | []]]; cbn [metricDesc Full.core numReports];
      now rewrite HR.
  - intros x bs s. unfold durationSamples, histogramOf.
    destruct (resolutionTimes s) as [rows | e]; [|intros []].
    destruct (CollectRows rows scanNumber); [|intros []].
    intros [<- | []]. cbn [metricDesc Full.core resolvedTimeSeconds].
    now rewrite HT.
  - intros x s. unfold Full.accountSamples, Full.accountGauges.
    destruct (Full.accountCounts s) as [[[[[v1 v2] v3] v4] v5] [e|]];
      [intros []|].
    intros [<- | [<- | [<- | [<- | [<- | []]]]]]; cbn [metricDesc];
      now rewrite HA.
  - intros x s. unfold Full.postSamples.
    destruct (Full.postCount s) as [c [e|]]; [intros []|].
    intros [<- | []]. cbn [metricDesc]. now rewrite HP.
  - cbn [metricDesc]. now rewrite HG.
Qed.

Lemma filter_named_same name xs :
  (forall x, In x xs -> fqName (metricDesc x) = name) ->
  filter (named name) xs = xs.
Proof.
  intros H. induction xs as [|x xs IH]; [reflexivity|].
  cbn [filter]. unfold named at 1. rewrite (H x (or_introl eq_refl)).
  rewrite String.eqb_refl, IH; [reflexivity|].
  intros y Hy. apply H. now right.
Qed.

Lemma filter_named_other name name' xs :
  name' <> name ->
  (forall x, In x xs -> fqName (metricDesc x) = name') ->
  filter (named name) xs = [].
Proof.
  intros Hne H. induction xs as [|x xs IH]; [reflexivity|].
  cbn [filter]. unfold named at 1. rewrite (H x (or_introl eq_refl)).
  apply String.eqb_neq in Hne. rewrite Hne. apply IH.
  intros y Hy. apply H. now right.
Qed.

End FullFacts.

(** X9: [getNumAccounts] returns either five gauges of the family
    [num_accounts], labelled [type="unsuspended"], ["bots"], ["groups"],
    ["people"] and ["suspended"] in this order and valued by the five
    integers scanned in this order, or the error of the store as it is
    (not wrapped) and no gauge; it issues its statement once, sends nothing
    and does not panic. *)
Theorem full_getNumAccounts_gauges :
  forall m w v1 v2 v3 v4 v5 oa,
    Full.installed m w ->
    Full.accountCounts (Full.store w) = (v1, v2, v3, v4, v5, oa) ->
    exists w',
      Full.getNumAccounts m w =
      Full.Returned
        match oa with
        | Some err => inr err
        | None => inl (Full.accountGauges m v1 v2 v3 v4 v5)
        end w' /\
      Full.emitted w w' = [] /\
      Full.gauges w' = Full.gauges w /\
      Full.logged w w' = [Full.Queried Full.SelectAccountCounts] /\
      map (sampleOf (Full.toCore w')) (Full.accountGauges m v1 v2 v3 v4 v5) =
      [valueSample "mastodon_exporter_num_accounts" GaugeValue
                   [("type", "unsuspended")]%string (float64_of_int v1);
       valueSample "mastodon_exporter_num_accounts" GaugeValue
                   [("type", "bots")]%string (float64_of_int v2);
       valueSample "mastodon_exporter_num_accounts" GaugeValue
                   [("type", "groups")]%string (float64_of_int v3);
       valueSample "mastodon_exporter_num_accounts" GaugeValue
                   [("type", "people")]%string (float64_of_int v4);
       valueSample "mastodon_exporter_num_accounts" GaugeValue
                   [("type", "suspended")]%string (float64_of_int v5)].
Proof.
  intros m w v1 v2 v3 v4 v5 oa Hm Hq.
  pose proof (full_installed_inv m w Hm) as (HA & _).
  destruct w as [[rs ac pc] bs gs ch tr]. cbn [Full.store Full.accountCounts] in Hq.
  subst ac. eexists. split.
  - apply full_getNumAccounts_run. now rewrite HA.
  - unfold Full.emitted, Full.logged. cbn [Full.chan Full.trace Full.gauges].
    split; [apply skipn_all|]. split; [reflexivity|].
    split; [apply skipn_length_app|].
    unfold Full.accountGauges. cbn [map sampleOf]. now rewrite HA.
Qed.

Lemma full_getNumAccounts_gauges_witness :
  exists w',
    Full.getNumAccounts Full.exampleExporter Full.exampleWorld =
    Full.Returned
      (inl (Full.accountGauges Full.exampleExporter 101 1 0 100 1)) w' /\
    Full.emitted Full.exampleWorld w' = [] /\
    Full.logged Full.exampleWorld w' = [Full.Queried Full.SelectAccountCounts].
Proof.
  destruct (full_getNumAccounts_gauges Full.exampleExporter Full.exampleWorld
              101 1 0 100 1 None full_example_installed eq_refl)
    as (w' & Hrun & He & _ & Hl & _).
  exists w'. repeat split; assumption.
Defined.

(** X10: every scrape of the four-family exporter returns; the last thing
    it sends is the gauge [errors], nothing else it sends bears that name,
    and the gauge reads the number of family queries, out of four, that
    failed in this scrape. *)
Theorem full_scrape_errors_gauge :
  forall m w,
    Full.installed m w ->
    exists w' families,
      Full.scrape m w = Full.Returned tt w' /\
      Full.emitted w w' = families ++ [gaugeMetric (Full.errors m)] /\
      (forall x, In x families -> named "mastodon_exporter_errors" x = false) /\
      named "mastodon_exporter_errors" (gaugeMetric (Full.errors m)) = true /\
      Full.gaugeValue w' (Full.errors m) =
      float64_of_int (Full.failures (Full.store w)) /\
      0 <= Full.failures (Full.store w) <= 4.
Proof.
  intros m w Hm.
  exists (Full.scrapeWorld m w),
         (reportSamples (Full.core m) (Full.reportStore (Full.store w))
            ++ durationSamples (Full.core m) (Full.resolutionTimeBuckets w)
                 (Full.reportStore (Full.store w))
            ++ Full.accountSamples m (Full.store w)
            ++ Full.postSamples m (Full.store w)).
  split; [now apply full_scrape_spec|].
  split; [rewrite full_emitted_scrapeWorld, <- !app_assoc; reflexivity|].
  destruct (full_names m w Hm) as (Hr & Hd & Ha & Hp & Hg).
  split; [|split; [|split]].
  - intros x Hx. unfold named.
    repeat (apply in_app_or in Hx as [Hx | Hx]).
    + now rewrite (Hr _ _ Hx).
    + now rewrite (Hd _ _ _ Hx).
    + now rewrite (Ha _ _ Hx).
    + now rewrite (Hp _ _ Hx).
  - unfold named. now rewrite Hg.
  - now apply full_gaugeValue_scrapeWorld.
  - apply full_failures_range.
Qed.

Lemma full_scrape_errors_gauge_witness :
  exists w' families,
    Full.scrape Full.exampleExporter Full.exampleWorld = Full.Returned tt w' /\
    Full.emitted Full.exampleWorld w' =
    families ++ [gaugeMetric (Full.errors Full.exampleExporter)] /\
    (forall x, In x families -> named "mastodon_exporter_errors" x = false) /\
    named "mastodon_exporter_errors"
          (gaugeMetric (Full.errors Full.exampleExporter)) = true /\
    Full.gaugeValue w' (Full.errors Full.exampleExporter) =
    float64_of_int (Full.failures Full.exampleStore) /\
    0 <= Full.failures Full.exampleStore <= 4.
Proof.
  apply (full_scrape_errors_gauge Full.exampleExporter Full.exampleWorld
           full_example_installed).
Defined.

(** X11: in a scrape of the four-family exporter the samples of each
    family are decided by the answer to that family's own statement alone
    (and the bounds, for the histogram): none when it fails, all of them
    otherwise, whatever happens to the other families; and the families are
    sent in the order reports, durations, accounts, posts, before the gauge
    [errors]. *)
Theorem full_scrape_families :
  forall m w,
    Full.installed m w ->
    exists w',
      Full.scrape m w = Full.Returned tt w' /\
      filter (named "mastodon_exporter_num_reports") (Full.emitted w w') =
      reportSamples (Full.core m) (Full.reportStore (Full.store w)) /\
      filter (named "mastodon_exporter_resolved_time_seconds")
             (Full.emitted w w') =
      durationSamples (Full.core m) (Full.resolutionTimeBuckets w)
                      (Full.reportStore (Full.store w)) /\
      filter (named "mastodon_exporter_num_accounts") (Full.emitted w w') =
      Full.accountSamples m (Full.store w) /\
      filter (named "mastodon_exporter_num_posts") (Full.emitted w w') =
      Full.postSamples m (Full.store w) /\
      Full.emitted w w' =
      filter (named "mastodon_exporter_num_reports") (Full.emitted w w')
        ++ filter (named "mastodon_exporter_resolved_time_seconds")
                  (Full.emitted w w')
        ++ filter (named "mastodon_exporter_num_accounts") (Full.emitted w w')
        ++ filter (named "mastodon_exporter_num_posts") (Full.emitted w w')
        ++ [gaugeMetric (Full.errors m)].
Proof.
  intros m w Hm. exists (Full.scrapeWorld m w).
  split; [now apply full_scrape_spec|].
  destruct (full_names m w Hm) as (Hr & Hd & Ha & Hp & Hg).
  rewrite full_emitted_scrapeWorld.
  set (R := reportSamples _ _) in *.
  set (D := durationSamples _ _ _) in *.
  set (A := Full.accountSamples _ _) in *.
  set (P := Full.postSamples _ _) in *.
  assert (forall name, filter (named name) [gaugeMetric (Full.errors m)] =
                       if String.eqb "mastodon_exporter_errors" name
                       then [gaugeMetric (Full.errors m)] else []) as HG.
  { intros name. cbn [filter]. unfold named. now rewrite Hg. }
  assert (filter (named "mastodon_exporter_num_reports")
                 (R ++ D ++ A ++ P ++ [gaugeMetric (Full.errors m)]) = R) as E1.
  { rewrite !filter_app, HG.
    rewrite (filter_named_same "mastodon_exporter_num_reports" R)
      by (intros; eapply Hr; eauto).
    rewrite (filter_named_other "mastodon_exporter_num_reports" "mastodon_exporter_resolved_time_seconds" D)
      by first [discriminate | intros; eapply Hd; eauto].
    rewrite (filter_named_other "mastodon_exporter_num_reports" "mastodon_exporter_num_accounts" A)
      by first [discriminate | intros; eapply Ha; eauto].
    rewrite (filter_named_other "mastodon_exporter_num_reports" "mastodon_exporter_num_posts" P)
      by first [discriminate | intros; eapply Hp; eauto].
    cbn. now rewrite app_nil_r. }
  assert (filter (named "mastodon_exporter_resolved_time_seconds")
                 (R ++ D ++ A ++ P ++ [gaugeMetric (Full.errors m)]) = D) as E2.
  { rewrite !filter_app, HG.
    rewrite (filter_named_same "mastodon_exporter_resolved_time_seconds" D)
      by (intros; eapply Hd; eauto).
    rewrite (filter_named_other "mastodon_exporter_resolved_time_seconds" "mastodon_exporter_num_reports" R)
      by first [discriminate | intros; eapply Hr; eauto].
    rewrite (filter_named_other "mastodon_exporter_resolved_time_seconds" "mastodon_exporter_num_accounts" A)
      by first [discriminate | intros; eapply Ha; eauto].
    rewrite (filter_named_other "mastodon_exporter_resolved_time_seconds" "mastodon_exporter_num_posts" P)
      by first [discriminate | intros; eapply Hp; eauto].
    cbn. now rewrite app_nil_r. }
  assert (filter (named "mastodon_exporter_num_accounts")
                 (R ++ D ++ A ++ P ++ [gaugeMetric (Full.errors m)]) = A) as E3.
  { rewrite !filter_app, HG.
    rewrite (filter_named_same "mastodon_exporter_num_accounts" A)
      by (intros; eapply Ha; eauto).
    rewrite (filter_named_other "mastodon_exporter_num_accounts" "mastodon_exporter_num_reports" R)
      by first [discriminate | intros; eapply Hr; eauto].
    rewrite (filter_named_other "mastodon_exporter_num_accounts" "mastodon_exporter_resolved_time_seconds" D)
      by first [discriminate | intros; eapply Hd; eauto].
    rewrite (filter_named_other "mastodon_exporter_num_accounts" "mastodon_exporter_num_posts" P)
      by first [discriminate | intros; eapply Hp; eauto].
    cbn. now rewrite app_nil_r. }
  assert (filter (named "mastodon_exporter_num_posts")
                 (R ++ D ++ A ++ P ++ [gaugeMetric (Full.errors m)]) = P) as E4.
  { rewrite !filter_app, HG.
    rewrite (filter_named_same "mastodon_exporter_num_posts" P)
      by (intros; eapply Hp; eauto).
    rewrite (filter_named_other "mastodon_exporter_num_posts" "mastodon_exporter_num_reports" R)
      by first [discriminate | intros; eapply Hr; eauto].
    rewrite (filter_named_other "mastodon_exporter_num_posts" "mastodon_exporter_resolved_time_seconds" D)
      by first [discriminate | intros; eapply Hd; eauto].
    rewrite (filter_named_other "mastodon_exporter_num_posts" "mastodon_exporter_num_accounts" A)
      by first [discriminate | intros; eapply Ha; eauto].
    cbn. now rewrite app_nil_r. }
  rewrite E1, E2, E3, E4. repeat split.
Qed.

Lemma full_scrape_families_witness :
  exists w',
    Full.scrape Full.exampleExporter
      (Full.set_store
         {| Full.reportStore := allDownStore;
            Full.accountCounts := (101, 1, 0, 100, 1, None);
            Full.postCount := (0, Some (errorString "cannot scan NULL")) |}
         Full.exampleWorld) = Full.Returned tt w' /\
    Full.emitted
      (Full.set_store
         {| Full.reportStore := allDownStore;
            Full.accountCounts := (101, 1, 0, 100, 1, None);
            Full.postCount := (0, Some (errorString "cannot scan NULL")) |}
         Full.exampleWorld) w' =
    Full.accountGauges Full.exampleExporter 101 1 0 100 1
      ++ [gaugeMetric (Full.errors Full.exampleExporter)].
Proof.
  destruct (full_scrape_families Full.exampleExporter
              (Full.set_store
                 {| Full.reportStore := allDownStore;
                    Full.accountCounts := (101, 1, 0, 100, 1, None);
                    Full.postCount :=
                      (0, Some (errorString "cannot scan NULL")) |}
                 Full.exampleWorld)
              (full_example_installed_at _))
    as (w' & Hrun & H1 & H2 & H3 & H4 & Hall).
  exists w'. split; [exact Hrun|].
  rewrite Hall, H1, H2, H3, H4. reflexivity.
Defined.

(** X12: whatever fails, a scrape of the four-family exporter issues its
    four statements once each, in the order reports, durations, accounts,
    posts; the first thing it logs is the debug line of the report family
    and, by the deferred call, the last is ["scrape finished"]. *)
Theorem full_scrape_statements :
  forall m w,
    Full.installed m w ->
    exists w' between,
      Full.scrape m w = Full.Returned tt w' /\
      filter Full.isQuery (Full.logged w w') =
      [Full.Shared (Queried SelectReportCounts);
       Full.Shared (Queried SelectResolutionTimes);
       Full.Queried Full.SelectAccountCounts;
       Full.Queried Full.SelectPostCount] /\
      Full.logged w w' =
      Full.LoggedDebug "Fetching number of reports" :: between
        ++ [Full.LoggedDebug "scrape finished"].
Proof.
  intros m w Hm.
  exists (Full.scrapeWorld m w),
         (map Full.Shared (reportTrace (Full.reportStore (Full.store w)))
            ++ [Full.LoggedDebug "Fetching report metrics"]
            ++ map Full.Shared (durationTrace (Full.reportStore (Full.store w)))
            ++ Full.accountTrace (Full.store w)
            ++ Full.postTrace (Full.store w)).
  split; [now apply full_scrape_spec|].
  rewrite full_logged_scrapeWorld.
  split.
  - unfold reportTrace, durationTrace, durationError, Full.accountTrace,
      Full.postTrace.
    destruct (reportCounts _) as [[r u] [e1|]],
             (Full.accountCounts _) as [[[[[v1 v2] v3] v4] v5] [e3|]],
             (Full.postCount _) as [c [e4|]];
      (destruct (resolutionTimes _) as [rows | e2];
       [destruct (CollectRows rows scanNumber)|]); reflexivity.
  - cbn [app]. f_equal.
    rewrite <- !app_assoc. cbn [app]. rewrite <- !app_assoc. reflexivity.
Qed.

Lemma full_scrape_statements_witness :
  exists w' between,
    Full.scrape Full.exampleExporter Full.exampleWorld = Full.Returned tt w' /\
    filter Full.isQuery (Full.logged Full.exampleWorld w') =
    [Full.Shared (Queried SelectReportCounts);
     Full.Shared (Queried SelectResolutionTimes);
     Full.Queried Full.SelectAccountCounts;
     Full.Queried Full.SelectPostCount] /\
    Full.logged Full.exampleWorld w' =
    Full.LoggedDebug "Fetching number of reports" :: between
      ++ [Full.LoggedDebug "scrape finished"].
Proof.
  apply (full_scrape_statements Full.exampleExporter Full.exampleWorld
           full_example_installed).
Defined.

(** X13: every metric a scrape of the four-family exporter sends bears a
    descriptor that its [Describe] announces, and the five descriptors
    announced have five different names. *)
Theorem full_scrape_sends_described :
  forall m w,
    Full.installed m w ->
    exists w',
      Full.scrape m w = Full.Returned tt w' /\
      (forall x, In x (Full.emitted w w') ->
                 In (metricDesc x) (Full.Describe m)) /\
      NoDup (map fqName (Full.Describe m)).
Proof.
  intros m w Hm. exists (Full.scrapeWorld m w).
  split; [now apply full_scrape_spec|].
  pose proof (full_installed_inv m w Hm) as (HA & HP & HR & HT & HG & _).
  split.
  - intros x. rewrite full_emitted_scrapeWorld. unfold Full.Describe.
    intros Hx. repeat (apply in_app_or in Hx as [Hx | Hx]).
    + unfold reportSamples in Hx.
      destruct (reportCounts _) as [[r u] [e|]]; [destruct Hx|].
      destruct Hx as [<- | [<- | []]]; cbn; tauto.
    + unfold durationSamples in Hx.
      destruct (resolutionTimes _) as [rows | e]; [|destruct Hx].
      destruct (CollectRows rows scanNumber); [|destruct Hx].
      destruct Hx as [<- | []]. cbn. tauto.
    + unfold Full.accountSamples, Full.accountGauges in Hx.
      destruct (Full.accountCounts _) as [[[[[v1 v2] v3] v4] v5] [e|]];
        [destruct Hx|].
      destruct Hx as [<- | [<- | [<- | [<- | [<- | []]]]]]; cbn; tauto.
    + unfold Full.postSamples in Hx.
      destruct (Full.postCount _) as [c [e|]]; [destruct Hx|].
      destruct Hx as [<- | []]. cbn. tauto.
    + destruct Hx as [<- | []]. cbn. tauto.
  - unfold Full.Describe. cbn [map]. rewrite HA, HP, HR, HT, HG.
    repeat constructor; cbn; intuition discriminate.
Qed.

Lemma full_scrape_sends_described_witness :
  exists w',
    Full.scrape Full.exampleExporter Full.exampleWorld = Full.Returned tt w' /\
    (forall x, In x (Full.emitted Full.exampleWorld w') ->
               In (metricDesc x) (Full.Describe Full.exampleExporter)) /\
    NoDup (map fqName (Full.Describe Full.exampleExporter)).
Proof.
  apply (full_scrape_sends_described Full.exampleExporter Full.exampleWorld
           full_example_installed).
Defined.

(** X14: in front of the same answers to the two report statements, the
    four-family scrape sends for the report and duration families exactly
    what the two-family scrape sends before its gauge, then the account and
    post families, then the gauge; and its gauge reads the failures among
    those two families plus the failures of the two new queries. *)
Theorem full_scrape_extends_core :
  forall m w,
    Full.installed m w ->
    exists w' c',
      Full.scrape m w = Full.Returned tt w' /\
      scrape (Full.core m) (Full.toCore w) = Returned tt c' /\
      Full.emitted w w' =
      removelast (emitted (Full.toCore w) c')
        ++ Full.accountSamples m (Full.store w)
        ++ Full.postSamples m (Full.store w)
        ++ [gaugeMetric (Full.errors m)] /\
      last (emitted (Full.toCore w) c') (gaugeMetric (Full.errors m)) =
      gaugeMetric (Full.errors m) /\
      Full.gaugeValue w' (Full.errors m) =
      float64_of_int (failures (Full.reportStore (Full.store w))
                      + Z.b2z (Full.accountsFail (Full.store w))
                      + Z.b2z (Full.postsFail (Full.store w))) /\
      gaugeValue c' (errors (Full.core m)) =
      float64_of_int (failures (Full.reportStore (Full.store w))).
Proof.
  intros m w Hm.
  assert (installed (Full.core m) (Full.toCore w)) as Hc
      by (apply (full_installed_core m w Hm); reflexivity).
  exists (Full.scrapeWorld m w), (scrapeWorld (Full.core m) (Full.toCore w)).
  split; [now apply full_scrape_spec|].
  split; [now apply scrape_spec|].
  rewrite full_emitted_scrapeWorld, emitted_scrapeWorld.
  rewrite full_gaugeValue_scrapeWorld, gaugeValue_scrapeWorld by assumption.
  cbn [Full.toCore store resolutionTimeBuckets Full.core errors].
  set (R := reportSamples _ _).
  set (D := durationSamples _ _ _).
  replace (R ++ D ++ [gaugeMetric (Full.errors m)])
    with ((R ++ D) ++ [gaugeMetric (Full.errors m)])
    by now rewrite <- app_assoc.
  rewrite removelast_last, last_last, <- app_assoc.
  repeat split.
Qed.

Lemma full_scrape_extends_core_witness :
  exists w' c',
    Full.scrape Full.exampleExporter Full.exampleWorld = Full.Returned tt w' /\
    scrape (Full.core Full.exampleExporter) (Full.toCore Full.exampleWorld)
    = Returned tt c' /\
    Full.emitted Full.exampleWorld w' =
    removelast (emitted (Full.toCore Full.exampleWorld) c')
      ++ Full.accountSamples Full.exampleExporter Full.exampleStore
      ++ Full.postSamples Full.exampleExporter Full.exampleStore
      ++ [gaugeMetric (Full.errors Full.exampleExporter)].
Proof.
  destruct (full_scrape_extends_core Full.exampleExporter Full.exampleWorld
              full_example_installed)
    as (w' & c' & H1 & H2 & H3 & _).
  exists w', c'. repeat split; assumption.
Defined.
